(** * stock-chart-compare: the comparator page and the stock route

    A shallow embedding of
    - [src/app/comparator/page.tsx]: [dateToUTCTimestamp],
      [getTimeframeStartDate], [processData], [fetchComparisonData] and the
      debounce effect;
    - the route handler [GET] of [/api/stock], in its two copies;
    - the price chart component [StockChart].

    Conventions of the embedding.
    - A JavaScript [number] that carries a price is an IEEE 754 binary64
      value: [spec_float] with precision 53 and maximal exponent 1024, with
      the library's round-to-nearest-even operations.
    - A [Date] is its time value, an integer number of milliseconds since the
      epoch ([Z]).  Timestamps in seconds are integers too.
    - A date string ["YYYY-MM-DD"] is the record of its three numeric fields,
      which is what [dateString.split('-').map(Number)] yields.  The embedding
      speaks about well-formed strings (see [well_formed]); on those
      [new Date(s).getTime()] is UTC midnight of that day.
    - The calendar functions are the ones of ECMA-262 (Day, TimeWithinDay,
      DayFromYear, YearFromTime, MonthFromTime, DateFromTime, MakeDay,
      MakeDate, MakeFullYear).  Local time is UTC shifted by a constant
      offset [tz] in milliseconds.
    - [response.json()], the network and the data provider are inputs of the
      functions that use them. *)

From Stdlib Require Import ZArith Lia List Bool String Ascii.
From Stdlib Require Import Sorted Permutation DecimalString.
From Stdlib Require Import Floats.SpecFloat.
Import ListNotations.
Open Scope Z_scope.

(** ** Numbers *)

Module Float64.

Definition prec : Z := 53.
Definition emax : Z := 1024.

Definition number : Type := spec_float.

Definition NaN : number := S754_nan.
Definition zero : number := S754_zero false.
(** 100 = 7036874417766400 * 2^-46 *)
Definition hundred : number := S754_finite false 7036874417766400 (-46).
(** integers written in the source or in the examples *)
Definition ofZ (n : Z) : number := binary_normalize prec emax n 0 false.

Definition mul (x y : number) : number := SFmul prec emax x y.
Definition div (x y : number) : number := SFdiv prec emax x y.
(** [x <= y] of JavaScript: false as soon as one side is NaN *)
Definition leb (x y : number) : bool := SFleb x y.

(** a positive real: finite and greater than zero *)
Definition positive_real (x : number) : bool :=
  match x with
  | S754_finite false _ _ => true
  | _ => false
  end.

End Float64.

(** ** The calendar of ECMA-262 *)

Module Calendar.

Definition msPerDay : Z := 86400000.

Definition Day (t : Z) : Z := t / msPerDay.
Definition TimeWithinDay (t : Z) : Z := t mod msPerDay.

Definition DayFromYear (y : Z) : Z :=
  365 * (y - 1970) + (y - 1969) / 4 - (y - 1901) / 100 + (y - 1601) / 400.

Definition InLeapYear (y : Z) : bool :=
  if negb (y mod 4 =? 0) then false
  else if negb (y mod 100 =? 0) then true
  else if negb (y mod 400 =? 0) then false
  else true.

Definition DaysInYear (y : Z) : Z := if InLeapYear y then 366 else 365.
Definition leapDays (y : Z) : Z := if InLeapYear y then 1 else 0.

(** Number of the first day of month [m] (0 = January) within year [y]. *)
Definition monthStart (y m : Z) : Z :=
  match m with
  | 0 => 0
  | 1 => 31
  | 2 => 59 + leapDays y
  | 3 => 90 + leapDays y
  | 4 => 120 + leapDays y
  | 5 => 151 + leapDays y
  | 6 => 181 + leapDays y
  | 7 => 212 + leapDays y
  | 8 => 243 + leapDays y
  | 9 => 273 + leapDays y
  | 10 => 304 + leapDays y
  | _ => 334 + leapDays y
  end.

(** The largest [y] with [DayFromYear y <= d]: an estimate from the mean
    length of a year, corrected by at most one. *)
Definition YearFromDay (d : Z) : Z :=
  let y := 1970 + (400 * d) / 146097 in
  if d <? DayFromYear y then y - 1
  else if DayFromYear (y + 1) <=? d then y + 1
  else y.

Definition MonthFromDayInYear (y w : Z) : Z :=
  if w <? 31 then 0
  else if w <? 59 + leapDays y then 1
  else if w <? 90 + leapDays y then 2
  else if w <? 120 + leapDays y then 3
  else if w <? 151 + leapDays y then 4
  else if w <? 181 + leapDays y then 5
  else if w <? 212 + leapDays y then 6
  else if w <? 243 + leapDays y then 7
  else if w <? 273 + leapDays y then 8
  else if w <? 304 + leapDays y then 9
  else if w <? 334 + leapDays y then 10
  else 11.

Definition YearFromTime (t : Z) : Z := YearFromDay (Day t).
Definition DayWithinYear (t : Z) : Z := Day t - DayFromYear (YearFromTime t).
Definition MonthFromTime (t : Z) : Z :=
  MonthFromDayInYear (YearFromTime t) (DayWithinYear t).
Definition DateFromTime (t : Z) : Z :=
  DayWithinYear t - monthStart (YearFromTime t) (MonthFromTime t) + 1.

Definition MakeDay (year month date : Z) : Z :=
  let ym := year + month / 12 in
  let mn := month mod 12 in
  DayFromYear ym + monthStart ym mn + date - 1.

Definition MakeDate (day time : Z) : Z := day * msPerDay + time.

(** Two-digit years of [Date.UTC] and of the [Date] constructor with
    numeric fields count from 1900. *)
Definition MakeFullYear (y : Z) : Z :=
  if (0 <=? y) && (y <=? 99) then 1900 + y else y.

(** Length of month [m] (1 = January) of year [y]. *)
Definition DaysInMonth (y m : Z) : Z :=
  match m with
  | 2 => 28 + leapDays y
  | 4 | 6 | 9 | 11 => 30
  | _ => 31
  end.

End Calendar.

(** ** Date objects *)

Module JSDate.
Import Calendar.

(** The date string ["YYYY-MM-DD"]. *)
Record ISODate : Type := mkDate { year : Z; month : Z; day : Z }.

Definition well_formed (d : ISODate) : bool :=
  (0 <=? year d) && (year d <=? 9999) &&
  (1 <=? month d) && (month d <=? 12) &&
  (1 <=? day d) && (day d <=? DaysInMonth (year d) (month d)).

(** [new Date(s).getTime()] for a date-only string: UTC midnight. *)
Definition getTime (d : ISODate) : Z :=
  MakeDate (MakeDay (year d) (month d - 1) (day d)) 0.

(** [Date.UTC(year, month, day)] *)
Definition Date_UTC (y m dt : Z) : Z :=
  MakeDate (MakeDay (MakeFullYear y) m dt) 0.

(** [toISOString().split("T")[0]] *)
Definition toISODate (t : Z) : ISODate :=
  {| year := YearFromTime t; month := MonthFromTime t + 1; day := DateFromTime t |}.

Definition LocalTime (tz t : Z) : Z := t + tz.
Definition UTC (tz t : Z) : Z := t - tz.

Definition getFullYear (tz t : Z) : Z := YearFromTime (LocalTime tz t).
Definition getDate (tz t : Z) : Z := DateFromTime (LocalTime tz t).

Definition setFullYear (tz t y : Z) : Z :=
  let l := LocalTime tz t in
  UTC tz (MakeDate (MakeDay y (MonthFromTime l) (DateFromTime l)) (TimeWithinDay l)).

Definition setDate (tz t dt : Z) : Z :=
  let l := LocalTime tz t in
  UTC tz (MakeDate (MakeDay (YearFromTime l) (MonthFromTime l) dt) (TimeWithinDay l)).

End JSDate.

(** ** Strings and arrays *)

Module JS.

Definition upper (c : ascii) : ascii :=
  let n := nat_of_ascii c in
  if (Nat.leb 97 n && Nat.leb n 122)%bool then ascii_of_nat (n - 32) else c.

(** [s.toUpperCase()] on ASCII text *)
Fixpoint toUpperCase (s : string) : string :=
  match s with
  | EmptyString => EmptyString
  | String c s' => String (upper c) (toUpperCase s')
  end.

(** [s.includes(needle)] *)
Fixpoint includes (needle s : string) : bool :=
  if prefix needle s then true
  else match s with
       | EmptyString => false
       | String _ s' => includes needle s'
       end.

(** a string in a condition: the empty string is falsy *)
Definition truthy (s : string) : bool :=
  match s with
  | EmptyString => false
  | _ => true
  end.

(** [a || b] on strings *)
Definition orElse (a b : string) : string := if truthy a then a else b.

Section Arrays.
Context {A : Type}.

(** [insert cmp x l] puts [x] before the first element it does not follow. *)
Fixpoint insert (cmp : A -> A -> Z) (x : A) (l : list A) : list A :=
  match l with
  | [] => [x]
  | y :: l' => if cmp x y <=? 0 then x :: l else y :: insert cmp x l'
  end.

(** [[...l].sort(cmp)].  The sort of the language is stable, and with a
    comparator that is a difference of finite keys its result is the one
    ordered arrangement that keeps equal keys in their input order; this is
    what insertion from the right computes. *)
Fixpoint sort (cmp : A -> A -> Z) (l : list A) : list A :=
  match l with
  | [] => []
  | x :: l' => insert cmp x (sort cmp l')
  end.

Fixpoint findIndexFrom (p : A -> bool) (l : list A) (i : Z) : Z :=
  match l with
  | [] => -1
  | x :: l' => if p x then i else findIndexFrom p l' (i + 1)
  end.

(** [l.findIndex(p)]: the first index that satisfies [p], or -1. *)
Definition findIndex (p : A -> bool) (l : list A) : Z := findIndexFrom p l 0.

(** [l.slice(i)] for an index [i >= 0] *)
Definition slice (l : list A) (i : Z) : list A := skipn (Z.to_nat i) l.

(** [l[i]] *)
Definition at_ (l : list A) (i : Z) : option A :=
  if i <? 0 then None else nth_error l (Z.to_nat i).

Definition push (l : list A) (x : A) : list A := l ++ [x].

Definition length (l : list A) : Z := Z.of_nat (List.length l).

End Arrays.

End JS.

(** ** The comparator page *)

Module Comparator.
Import Float64 Calendar JSDate.

Record StockPriceData : Type := mkPrice {
  date : ISODate;
  price : number
}.

Record StockData : Type := mkStock {
  symbol : string;
  prices : list StockPriceData;
  name : option string
}.

Record PerformancePoint : Type := mkPoint {
  time : Z;
  value : number
}.

Record ComparisonResult : Type := mkComparison {
  ticker1 : string;
  ticker2 : string;
  series1 : list PerformancePoint;
  series2 : list PerformancePoint;
  finalValue1 : number;
  finalValue2 : number
}.

(** What [processData] returns when it does not return [null]. *)
Record Processed : Type := mkProcessed {
  series : list PerformancePoint;
  finalValue : number
}.

Definition dateToUTCTimestamp (dateString : ISODate) : Z :=
  Date_UTC (year dateString) (month dateString - 1) (day dateString) / 1000.

(** The [switch] either returns from the function ([inl]) or falls out with
    the updated [result] ([inr]). *)
Definition getTimeframeStartDate (tz endDate : Z) (option : string) : Z :=
  let result := endDate in
  let switched : Z + Z :=
    if (option =? "1y")%string then
      inr (setFullYear tz result (getFullYear tz endDate - 1))
    else if (option =? "3y")%string then
      inr (setFullYear tz result (getFullYear tz endDate - 3))
    else if (option =? "5y")%string then
      inr (setFullYear tz result (getFullYear tz endDate - 5))
    else if (option =? "all")%string then
      inl 0
    else
      inr (setFullYear tz result (getFullYear tz endDate - 1)) in
  match switched with
  | inl early => early
  | inr result => setDate tz result (getDate tz result - 1)
  end.

(** The comparator of the defensive sort. *)
Definition byDate (a b : StockPriceData) : Z := getTime (date a) - getTime (date b).

Definition onOrAfter (startDate : Z) (p : StockPriceData) : bool :=
  getTime (date p) >=? startDate.

(** One turn of the emission loop. *)
Definition emit (startPrice : number) (performanceSeries : list PerformancePoint)
    (point : StockPriceData) : list PerformancePoint :=
  let currentValue := mul hundred (div (price point) startPrice) in
  JS.push performanceSeries
    {| time := dateToUTCTimestamp (date point); value := currentValue |}.

Definition processData (stockData : list StockData) (startDate : Z) : option Processed :=
  match stockData with
  | [] => None
  | first :: _ =>
    if JS.length (prices first) =? 0 then None
    else
      let prices := JS.sort byDate (prices first) in
      let startIndex := JS.findIndex (onOrAfter startDate) prices in
      if (startIndex =? -1) || (startIndex >=? JS.length prices) then None
      else
        match JS.at_ prices startIndex with
        | None => None (* not reached: [startIndex] is an index of [prices] *)
        | Some start =>
          let startPrice := price start in
          if leb startPrice zero then None
          else
            let relevantPrices := JS.slice prices startIndex in
            let performanceSeries := fold_left (emit startPrice) relevantPrices [] in
            let finalValue :=
              if JS.length performanceSeries >? 0 then
                match JS.at_ performanceSeries (JS.length performanceSeries - 1) with
                | Some last => value last
                | None => NaN
                end
              else hundred in
            Some {| series := performanceSeries; finalValue := finalValue |}
        end
  end.

(** *** The orchestrator *)

(** How one [fetch] settles: it rejects, or it resolves to a response with
    its [ok] flag, whose [json()] gives the data or throws. *)
Inductive Fetched : Type :=
| Rejected (message : string)
| Resolved (ok : bool) (json : string + StockData).

(** The three pieces of component state the orchestrator writes. *)
Record View : Type := mkView {
  comparisonData : option ComparisonResult;
  loading : bool;
  error : string
}.

Definition setComparisonData (c : option ComparisonResult) (v : View) : View :=
  {| comparisonData := c; loading := loading v; error := error v |}.
Definition setLoading (b : bool) (v : View) : View :=
  {| comparisonData := comparisonData v; loading := b; error := error v |}.
Definition setError (e : string) (v : View) : View :=
  {| comparisonData := comparisonData v; loading := loading v; error := e |}.

(** A computation that may throw [Error(message)]. *)
Definition Try (A : Type) : Type := (string + A)%type.
Definition throw {A : Type} (message : string) : Try A := inl message.
Definition bind {A B : Type} (m : Try A) (k : A -> Try B) : Try B :=
  match m with
  | inl message => inl message
  | inr a => k a
  end.

Notation "x <- m ;; k" := (bind m (fun x => k))
  (at level 61, m at next level, right associativity).

Definition Response : Type := (bool * (string + StockData))%type.

(** [await Promise.all([f1, f2])]: both responses, or the reason of the
    rejection that came first ([secondFirst] tells which, when both reject). *)
Definition Promise_all (f1 f2 : Fetched) (secondFirst : bool) : Try (Response * Response) :=
  match f1, f2 with
  | Resolved ok1 j1, Resolved ok2 j2 => inr ((ok1, j1), (ok2, j2))
  | Rejected m1, Resolved _ _ => throw m1
  | Resolved _ _, Rejected m2 => throw m2
  | Rejected m1, Rejected m2 => throw (if secondFirst then m2 else m1)
  end.

Definition fetchError (ticker1 ticker2 : string) (ok1 ok2 : bool) : string :=
  let errorMsg := "Failed to fetch stock data."%string in
  let errorMsg := if negb ok1 then (errorMsg ++ " Check ticker " ++ ticker1 ++ ".")%string else errorMsg in
  let errorMsg := if negb ok2 then (errorMsg ++ " Check ticker " ++ ticker2 ++ ".")%string else errorMsg in
  errorMsg.

Definition processError (ticker1 ticker2 : string) (processed1 processed2 : option Processed) : string :=
  let errorMsg := "Could not process data for comparison."%string in
  let errorMsg :=
    match processed1 with
    | Some _ => errorMsg
    | None => (errorMsg ++ " Check data availability for " ++ ticker1 ++ ".")%string
    end in
  let errorMsg :=
    match processed2 with
    | Some _ => errorMsg
    | None => (errorMsg ++ " Check data availability for " ++ ticker2 ++ ".")%string
    end in
  errorMsg.

(** The body of the [try] block. *)
Definition compare (ticker1 ticker2 : string) (startDate : Z)
    (f1 f2 : Fetched) (secondFirst : bool) : Try ComparisonResult :=
  responses <- Promise_all f1 f2 secondFirst ;;
  let '((ok1, json1), (ok2, json2)) := responses in
  if negb ok1 || negb ok2 then throw (fetchError ticker1 ticker2 ok1 ok2)
  else
    data1 <- json1 ;;
    data2 <- json2 ;;
    let processed1 := processData [data1] startDate in
    let processed2 := processData [data2] startDate in
    match processed1, processed2 with
    | Some p1, Some p2 =>
      inr {| ticker1 := JS.toUpperCase ticker1;
             ticker2 := JS.toUpperCase ticker2;
             series1 := series p1;
             series2 := series p2;
             finalValue1 := finalValue p1;
             finalValue2 := finalValue p2 |}
    | _, _ => throw (processError ticker1 ticker2 processed1 processed2)
    end.

(** [fetchComparisonData] is asynchronous: it writes to the state when it is
    called and again when it settles, and other callbacks (another call of
    it, the effect below) can write in between.

    The writes made at the call, up to the first [await]. *)
Definition fetchComparisonData_begin (v : View) : View :=
  setError "" (setLoading true v).

(** The writes made at settlement, on the state as it is then: [now] is the
    clock read by [new Date()] at the call, [f1] and [f2] are how the two
    fetches settle. *)
Definition fetchComparisonData_settle (tz now : Z) (ticker1 ticker2 timeframe : string)
    (f1 f2 : Fetched) (secondFirst : bool) (v : View) : View :=
  let endDate := now in
  let startDate := getTimeframeStartDate tz endDate timeframe in
  let v :=
    match compare ticker1 ticker2 startDate f1 f2 secondFirst with
    | inr result => setComparisonData (Some result) v
    | inl message =>
      setComparisonData None (setError (JS.orElse message "An unknown error occurred.") v)
    end in
  setLoading false v.

(** One call from beginning to end; [meanwhile] is what the other callbacks
    do to the state while the call awaits. *)
Definition fetchComparisonData (tz now : Z) (ticker1 ticker2 timeframe : string)
    (f1 f2 : Fetched) (secondFirst : bool) (meanwhile : View -> View) (v : View) : View :=
  if negb (JS.truthy ticker1) || negb (JS.truthy ticker2) then
    setError "" (setComparisonData None v)
  else
    fetchComparisonData_settle tz now ticker1 ticker2 timeframe f1 f2 secondFirst
      (meanwhile (fetchComparisonData_begin v)).

(** *** The debounce effect *)

(** The values an effect closes over. *)
Record Inputs : Type := mkInputs {
  input1 : string;      (* ticker1 *)
  input2 : string;      (* ticker2 *)
  inputTimeframe : string
}.

(** A pending [setTimeout]: its id, the time it is due, and the inputs that
    its callback, a call of [fetchComparisonData], closes over. *)
Record Timer : Type := mkTimer {
  timerId : positive;
  due : Z;
  closure : Inputs
}.

Record Component : Type := mkComponent {
  clock : Z;
  timers : list Timer;               (* pending timers, oldest first *)
  nextTimerId : positive;
  debounceTimerRef : option positive;
  view : View;
  calls : list (Z * Inputs)          (* invocations of fetchComparisonData *)
}.

Definition debounceDelay : Z := 500.

Definition clearTimeout (id : positive) (c : Component) : Component :=
  {| clock := clock c;
     timers := filter (fun t => negb (Pos.eqb (timerId t) id)) (timers c);
     nextTimerId := nextTimerId c;
     debounceTimerRef := debounceTimerRef c;
     view := view c;
     calls := calls c |}.

(** [debounceTimerRef.current = setTimeout(callback, delay)] *)
Definition setTimeoutRef (i : Inputs) (delay : Z) (c : Component) : Component :=
  {| clock := clock c;
     timers := timers c ++ [ {| timerId := nextTimerId c; due := clock c + delay; closure := i |} ];
     nextTimerId := Pos.succ (nextTimerId c);
     debounceTimerRef := Some (nextTimerId c);
     view := view c;
     calls := calls c |}.

Definition withView (f : View -> View) (c : Component) : Component :=
  {| clock := clock c;
     timers := timers c;
     nextTimerId := nextTimerId c;
     debounceTimerRef := debounceTimerRef c;
     view := f (view c);
     calls := calls c |}.

Definition clearPending (c : Component) : Component :=
  match debounceTimerRef c with
  | Some id => clearTimeout id c
  | None => c
  end.

(** The body of the effect, run with the inputs of the render. *)
Definition effect (i : Inputs) (c : Component) : Component :=
  let c := withView (fun v => setError "" (setComparisonData None v)) c in
  let c := clearPending c in
  if JS.truthy (input1 i) && JS.truthy (input2 i) then
    let c := withView (setLoading true) c in
    setTimeoutRef i debounceDelay c
  else
    withView (setLoading false) c.

(** The function the effect returns. *)
Definition cleanup (c : Component) : Component := clearPending c.

(** The event loop runs the timers that are due at [t], oldest first; each
    calls [fetchComparisonData] with the inputs it closed over. *)
Definition runTimers (t : Z) (c : Component) : Component :=
  let ready := filter (fun x => due x <=? t) (timers c) in
  {| clock := t;
     timers := filter (fun x => negb (due x <=? t)) (timers c);
     nextTimerId := nextTimerId c;
     debounceTimerRef := debounceTimerRef c;
     view := view c;
     calls := calls c ++ map (fun x => (due x, closure x)) ready |}.

Inductive Event : Type :=
| InputChange (at_time : Z) (i : Inputs)   (* a render with changed inputs *)
| Elapse (until : Z).                      (* time passes *)

Definition step (c : Component) (e : Event) : Component :=
  match e with
  | InputChange t i => effect i (cleanup (runTimers t c))
  | Elapse t => runTimers t c
  end.

Definition run (events : list Event) (c : Component) : Component :=
  fold_left step events c.

(** The component after its first render, with both inputs empty. *)
Definition mounted (t0 : Z) : Component :=
  effect {| input1 := ""; input2 := ""; inputTimeframe := "1y" |}
    {| clock := t0;
       timers := [];
       nextTimerId := 1%positive;
       debounceTimerRef := None;
       view := {| comparisonData := None; loading := false; error := "" |};
       calls := [] |}.

End Comparator.

(** ** The route [GET /api/stock] *)

Module StockRoute.
Import Float64 Calendar JSDate.

(** One bar of the provider's chart; a field can be null or missing. *)
Record Quote : Type := mkQuote {
  q_date : Z;
  adjclose : option number;
  q_open : option number;
  q_high : option number;
  q_low : option number;
  q_close : option number
}.

(** What the provider throws: the route looks at [message] and [code]. *)
Record ProviderError : Type := mkError {
  message : option string;
  code : option string
}.

Record QuoteSummary : Type := mkSummary {
  longName : option string;
  shortName : option string
}.

(** The outside of the route: the data provider, the server's clock and time
    zone, and the rounding [Number.parseFloat(x.toFixed(2))]. *)
Record World : Type := mkWorld {
  now : Z;
  tz : Z;
  chart : string -> ISODate -> ISODate -> ProviderError + option (list Quote);
  quote : string -> ProviderError + option QuoteSummary;
  toFixed2 : number -> number
}.

Record PriceRow : Type := mkRow {
  date : ISODate;
  price : number;
  open : number;
  high : number;
  low : number;
  close : number
}.

Inductive Body : Type :=
| StockJson (symbol name : string) (prices : list PriceRow)
| ErrorJson (error : string).

Record HttpResponse : Type := mkResponse {
  status : Z;
  body : Body
}.

(** [NextResponse.json(body)] and [NextResponse.json(body, { status })] *)
Definition json (b : Body) : HttpResponse := {| status := 200; body := b |}.
Definition jsonStatus (b : Body) (s : Z) : HttpResponse := {| status := s; body := b |}.

(** [a ?? b] *)
Definition nullish {A : Type} (a b : option A) : option A :=
  match a with
  | Some x => Some x
  | None => b
  end.

(** The callback of [history.map]: [None] is the [null] it returns for a bar
    with a missing value. *)
Definition formatQuote (w : World) (data : Quote) : option PriceRow :=
  match nullish (adjclose data) (q_close data),
        q_open data, q_high data, q_low data, q_close data with
  | Some priceValue, Some open, Some high, Some low, Some close =>
    Some {| date := toISODate (q_date data);
            price := toFixed2 w priceValue;
            open := toFixed2 w open;
            high := toFixed2 w high;
            low := toFixed2 w low;
            close := toFixed2 w close |}
  | _, _, _, _, _ => None
  end.

(** [.map(...).filter(data => data !== null)] *)
Fixpoint formatPrices (w : World) (history : list Quote) : list PriceRow :=
  match history with
  | [] => []
  | data :: rest =>
    match formatQuote w data with
    | Some row => row :: formatPrices w rest
    | None => formatPrices w rest
    end
  end.

Definition rangeStart (w : World) (timeframe : string) : Z :=
  let endDate := now w in
  let startDate := now w in
  if (timeframe =? "1y")%string then setFullYear (tz w) startDate (getFullYear (tz w) endDate - 1)
  else if (timeframe =? "3y")%string then setFullYear (tz w) startDate (getFullYear (tz w) endDate - 3)
  else if (timeframe =? "5y")%string then setFullYear (tz w) startDate (getFullYear (tz w) endDate - 5)
  else if (timeframe =? "all")%string then 0
  else setFullYear (tz w) startDate (getFullYear (tz w) endDate - 2).

Definition stringOr (a : option string) (b : string) : string :=
  match a with
  | Some s => JS.orElse s b
  | None => b
  end.

(** The condition of the [catch] block that selects the 404 answer. *)
Definition notFound (e : ProviderError) : bool :=
  match message e with
  | Some m => JS.includes "No data found" m
  | None => false
  end
  ||
  match code e with
  | Some c => (c =? "Not Found")%string
  | None => false
  end.

(** The body of the [try] block: [inl] is the error thrown by the provider. *)
Definition fetchStock (w : World) (symbol timeframe : string) : ProviderError + Body :=
  let endDate := now w in
  let startDate := rangeStart w timeframe in
  let formattedStartDate := toISODate startDate in
  let formattedEndDate := toISODate endDate in
  match chart w symbol formattedStartDate formattedEndDate with
  | inl e => inl e
  | inr chartResult =>
    let history := match chartResult with Some quotes => quotes | None => [] end in
    match quote w symbol with
    | inl e => inl e
    | inr q =>
      let name :=
        stringOr (match q with Some s => longName s | None => None end)
          (stringOr (match q with Some s => shortName s | None => None end)
             (symbol ++ " Inc.")) in
      let prices := formatPrices w history in
      inr (StockJson symbol name prices)
    end
  end.

(** [symbolParam] and [timeframeParam] are [searchParams.get(...)]. *)
Definition GET (w : World) (symbolParam timeframeParam : option string) : HttpResponse :=
  let symbol := match symbolParam with Some s => JS.toUpperCase s | None => ""%string end in
  let timeframe := stringOr timeframeParam "2y" in
  if negb (JS.truthy symbol) then
    jsonStatus (ErrorJson "Stock symbol is required") 400
  else
    match fetchStock w symbol timeframe with
    | inr stockData => json stockData
    | inl error =>
      if notFound error then
        jsonStatus (ErrorJson ("Stock symbol " ++ symbol ++ " not found or no data available")) 404
      else
        jsonStatus (ErrorJson "Failed to fetch stock data") 500
    end.

End StockRoute.

(** ** Vocabulary of the statements *)

Module Spec.
Import Float64 Calendar JSDate Comparator.

(** [p], at index [i] of [l], is the first point dated on or after
    [startDate]. *)
Definition firstOnOrAfter (startDate : Z) (l : list StockPriceData)
    (i : nat) (p : StockPriceData) : Prop :=
  nth_error l i = Some p /\
  startDate <= getTime (date p) /\
  forall j q, (j < i)%nat -> nth_error l j = Some q -> getTime (date q) < startDate.

(** The point emitted for [p] when the base price is [base]. *)
Definition rebased (base : number) (p : StockPriceData) : PerformancePoint :=
  {| time := dateToUTCTimestamp (date p);
     value := mul hundred (div (price p) base) |}.

(** [a] is dated no later than [b], as the comparator of the sort sees it;
    a series is ascending when this holds of every earlier and later point. *)
Definition notAfter (a b : StockPriceData) : Prop :=
  getTime (date a) <= getTime (date b).

Definition before (a b : StockPriceData) : Prop :=
  getTime (date a) < getTime (date b).

Definition ascending (l : list StockPriceData) : Prop := StronglySorted notAfter l.

Definition strictlyAscending (l : list Z) : Prop := StronglySorted Z.lt l.

(** The resolver as the specification words it: the number of years of a
    token (an unrecognized token counts as ["1y"]) ... *)
Definition yearsOf (token : string) : Z :=
  if (token =? "3y")%string then 3
  else if (token =? "5y")%string then 5
  else 1.

(** ... the same local month, day and time of day [n] calendar years
    earlier, a day that does not exist there running over into the next
    month ... *)
Definition minusYears (tz t n : Z) : Z :=
  let l := LocalTime tz t in
  UTC tz (MakeDate (MakeDay (YearFromTime l - n) (MonthFromTime l) (DateFromTime l))
                   (TimeWithinDay l)).

(** ... and one day less. *)
Definition resolveStart (tz endDate : Z) (token : string) : Z :=
  minusYears tz endDate (yearsOf token) - msPerDay.

(** The local calendar fields and time of day of a time value. *)
Definition localFields (tz t : Z) : Z * Z * Z * Z :=
  let l := LocalTime tz t in
  (YearFromTime l, MonthFromTime l + 1, DateFromTime l, TimeWithinDay l).

(** No timer is pending except, possibly, the one the ref holds. *)
Definition onlyRefPending (c : Component) : Prop :=
  forall t, In t (timers c) -> debounceTimerRef c = Some (timerId t).

Definition qualifying (i : Inputs) : bool :=
  JS.truthy (input1 i) && JS.truthy (input2 i).

End Spec.

(** ** The route, the copy with the typed [catch] block *)

Module StockRoute2.
Import Float64 Calendar JSDate.

(** What is thrown, as the [catch] block tells it apart ([null] and
    [undefined] are never thrown by the provider). *)
Inductive Thrown : Type :=
| ErrorInstance (message : string)                         (* instanceof Error *)
| CodedObject (code : option string) (message : option string)
    (* another object with a 'code' property; [code] is its value when it is a string *)
| Text (text : string)                                     (* typeof error === 'string' *)
| OtherValue.                                              (* anything else *)

Record World : Type := mkWorld {
  now : Z;
  tz : Z;
  chart : string -> ISODate -> ISODate -> Thrown + option (list StockRoute.Quote);
  quote : string -> Thrown + option StockRoute.QuoteSummary;
  toFixed2 : number -> number
}.

Definition formatQuote (w : World) (data : StockRoute.Quote) : option StockRoute.PriceRow :=
  match StockRoute.nullish (StockRoute.adjclose data) (StockRoute.q_close data),
        StockRoute.q_open data, StockRoute.q_high data,
        StockRoute.q_low data, StockRoute.q_close data with
  | Some priceValue, Some open, Some high, Some low, Some close =>
    Some {| StockRoute.date := toISODate (StockRoute.q_date data);
            StockRoute.price := toFixed2 w priceValue;
            StockRoute.open := toFixed2 w open;
            StockRoute.high := toFixed2 w high;
            StockRoute.low := toFixed2 w low;
            StockRoute.close := toFixed2 w close |}
  | _, _, _, _, _ => None
  end.

Fixpoint formatPrices (w : World) (history : list StockRoute.Quote) : list StockRoute.PriceRow :=
  match history with
  | [] => []
  | data :: rest =>
    match formatQuote w data with
    | Some row => row :: formatPrices w rest
    | None => formatPrices w rest
    end
  end.

Definition rangeStart (w : World) (timeframe : string) : Z :=
  let endDate := now w in
  let startDate := now w in
  if (timeframe =? "1y")%string then setFullYear (tz w) startDate (getFullYear (tz w) endDate - 1)
  else if (timeframe =? "3y")%string then setFullYear (tz w) startDate (getFullYear (tz w) endDate - 3)
  else if (timeframe =? "5y")%string then setFullYear (tz w) startDate (getFullYear (tz w) endDate - 5)
  else if (timeframe =? "all")%string then 0
  else setFullYear (tz w) startDate (getFullYear (tz w) endDate - 2).

Definition fetchStock (w : World) (symbol timeframe : string) : Thrown + StockRoute.Body :=
  let endDate := now w in
  let startDate := rangeStart w timeframe in
  let formattedStartDate := toISODate startDate in
  let formattedEndDate := toISODate endDate in
  match chart w symbol formattedStartDate formattedEndDate with
  | inl e => inl e
  | inr chartResult =>
    let history := match chartResult with Some quotes => quotes | None => [] end in
    match quote w symbol with
    | inl e => inl e
    | inr q =>
      let name :=
        StockRoute.stringOr (match q with Some s => StockRoute.longName s | None => None end)
          (StockRoute.stringOr (match q with Some s => StockRoute.shortName s | None => None end)
             (symbol ++ " Inc.")) in
      let prices := formatPrices w history in
      inr (StockRoute.StockJson symbol name prices)
    end
  end.

(** The [catch] block: the message and the status it settles on. *)
Definition explain (symbol : string) (error : Thrown) : string * Z :=
  let errorMessage := "Failed to fetch stock data"%string in
  let statusCode := 500 in
  let notFoundMessage := ("Stock symbol " ++ symbol ++ " not found or no data available")%string in
  match error with
  | ErrorInstance message =>
    if JS.includes "No data found" message then (notFoundMessage, 404)
    else (message, statusCode)
  | CodedObject code message =>
    if match code with Some c => (c =? "Not Found")%string | None => false end
    then (notFoundMessage, 404)
    else
      match message with
      | Some m => if JS.truthy m then (m, statusCode) else (errorMessage, statusCode)
      | None => (errorMessage, statusCode)
      end
  | Text text => (text, statusCode)
  | OtherValue => (errorMessage, statusCode)
  end.

Definition GET (w : World) (symbolParam timeframeParam : option string) : StockRoute.HttpResponse :=
  let symbol := match symbolParam with Some s => JS.toUpperCase s | None => ""%string end in
  let timeframe := StockRoute.stringOr timeframeParam "2y" in
  if negb (JS.truthy symbol) then
    StockRoute.jsonStatus (StockRoute.ErrorJson "Stock symbol is required") 400
  else
    match fetchStock w symbol timeframe with
    | inr stockData => StockRoute.json stockData
    | inl error =>
      let '(errorMessage, statusCode) := explain symbol error in
      StockRoute.jsonStatus (StockRoute.ErrorJson errorMessage) statusCode
    end.

End StockRoute2.

(** ** The price chart component *)

Module StockChart.
Import Float64 Calendar JSDate.

Record ChartDatum : Type := mkDatum {
  date : string;
  price : number
}.

(** The short month names of the "en-US" locale, months counted from 0. *)
Definition monthShort (m : Z) : string :=
  match m with
  | 0 => "Jan" | 1 => "Feb" | 2 => "Mar" | 3 => "Apr" | 4 => "May" | 5 => "Jun"
  | 6 => "Jul" | 7 => "Aug" | 8 => "Sep" | 9 => "Oct" | 10 => "Nov" | _ => "Dec"
  end.

Definition numeric (n : Z) : string := NilZero.string_of_int (Z.to_int n).

(** [toLocaleDateString("en-US", { month: "short", day: "numeric" })] of the
    date object with time value [t], in the local time zone. *)
Definition toLocaleDateString (tz t : Z) : string :=
  let l := LocalTime tz t in
  (monthShort (MonthFromTime l) ++ " " ++ numeric (DateFromTime l))%string.

(** [data.map(item => ({ date: ..., price: item.price }))] *)
Definition chartData (tz : Z) (data : list Comparator.StockPriceData) : list ChartDatum :=
  map (fun item =>
         {| date := toLocaleDateString tz (getTime (Comparator.date item));
            price := Comparator.price item |})
      data.

End StockChart.

(** ** More vocabulary *)

Module Spec2.
Import Float64 Calendar JSDate Comparator Spec.

(** The calls a run of input changes leaves behind: a change is followed by
    its call, 500 ms later, when both tickers are filled in and the next
    change, if there is one, comes no earlier than that. *)
Fixpoint survivors (changes : list (Z * Inputs)) : list (Z * Inputs) :=
  match changes with
  | [] => []
  | (t, i) :: rest =>
    (if qualifying i &&
        match rest with
        | [] => true
        | (t', _) :: _ => t + debounceDelay <=? t'
        end
     then [(t + debounceDelay, i)]
     else [])
    ++ survivors rest
  end.

Definition change (c : Z * Inputs) : Event := InputChange (fst c) (snd c).

(** The times of a list of changes never go back. *)
Definition inTimeOrder (changes : list (Z * Inputs)) : Prop :=
  StronglySorted (fun a b => fst a <= fst b) changes.

(** A call that comes 500 ms after one of the changes, with its inputs. *)
Definition fromChange (events : list Event) (call : Z * Inputs) : Prop :=
  In (InputChange (fst call - debounceDelay) (snd call)) events.

(** A bar with all the values the route asks for. *)
Definition complete (data : StockRoute.Quote) : bool :=
  match StockRoute.q_open data, StockRoute.q_high data,
        StockRoute.q_low data, StockRoute.q_close data with
  | Some _, Some _, Some _, Some _ => true
  | _, _, _, _ => false
  end.

End Spec2.

(** * Properties *)

Import Float64 Calendar JSDate Comparator Spec.

(** Case analysis on every [<?] test of the goal. *)
Ltac split_ltb :=
  repeat match goal with |- context [?a <? ?b] => destruct (Z.ltb_spec a b) end.

(** ** Arithmetic of binary64 *)

Lemma div_eucl_shift (m : positive) :
  Z.div_eucl (Z.shiftl (Zpos m) 53) (Zpos m) = (9007199254740992, 0).
Proof.
  rewrite Z.shiftl_mul_pow2 by lia.
  change (2 ^ 53) with 9007199254740992.
  pose proof (Z.div_mul 9007199254740992 (Zpos m) ltac:(lia)) as Hq.
  pose proof (Z.mod_mul 9007199254740992 (Zpos m) ltac:(lia)) as Hr.
  rewrite (Z.mul_comm 9007199254740992) in Hq, Hr.
  unfold Z.div, Z.modulo in Hq, Hr.
  destruct (Z.div_eucl (Zpos m * 9007199254740992) (Zpos m)) as [q r].
  simpl in Hq, Hr. subst. reflexivity.
Qed.

(** A finite non-zero number divided by itself is exactly 1: the quotient of
    the mantissas is a power of two and nothing is rounded away. *)
Lemma div_self (m : positive) (e : Z) :
  div (S754_finite false m e) (S754_finite false m e) = ofZ 1.
Proof.
  unfold div, SFdiv, SFdiv_core_binary.
  rewrite !Z.sub_diag.
  change (Z.min (fexp prec emax 0) 0) with (-53).
  change (0 - -53) with 53.
  cbv iota beta.
  rewrite div_eucl_shift.
  assert (Hloc : new_location (Zpos m) 0 = loc_Exact).
  { unfold new_location. destruct (Z.even (Zpos m)); reflexivity. }
  rewrite Hloc. vm_compute. reflexivity.
Qed.

Lemma rebase_self (x : number) :
  positive_real x = true -> mul hundred (div x x) = hundred.
Proof.
  destruct x as [s | s | | [|] m e]; try discriminate. intros _.
  rewrite div_self. vm_compute. reflexivity.
Qed.

Lemma positive_real_not_leb (x : number) :
  positive_real x = true -> leb x zero = false.
Proof. destruct x as [s | s | | [|] m e]; try discriminate. reflexivity. Qed.

(** The source divides first and multiplies by 100 afterwards; the other
    order rounds differently, for instance at 1/3. *)
Remark rebase_order :
  mul hundred (div (ofZ 1) (ofZ 3)) <> div (mul hundred (ofZ 1)) (ofZ 3).
Proof. vm_compute. discriminate. Qed.

(** ** The calendar *)

Lemma DayFromYear_succ (y : Z) : DayFromYear (y + 1) = DayFromYear y + DaysInYear y.
Proof.
  unfold DayFromYear, DaysInYear, InLeapYear.
  repeat match goal with |- context [?a =? ?b] => destruct (Z.eqb_spec a b) end;
    cbn [negb]; Z.div_mod_to_equations; lia.
Qed.

Lemma DayFromYear_lt (y1 y2 : Z) : y1 < y2 -> DayFromYear y1 < DayFromYear y2.
Proof. unfold DayFromYear. intros H. Z.div_mod_to_equations. lia. Qed.

Lemma DayFromYear_le (y1 y2 : Z) : y1 <= y2 -> DayFromYear y1 <= DayFromYear y2.
Proof. unfold DayFromYear. intros H. Z.div_mod_to_equations. lia. Qed.

Lemma YearFromDay_spec (d : Z) :
  DayFromYear (YearFromDay d) <= d < DayFromYear (YearFromDay d + 1).
Proof.
  unfold YearFromDay.
  set (y := 1970 + 400 * d / 146097).
  assert (H1 : DayFromYear (y - 1) <= d).
  { unfold DayFromYear, y. Z.div_mod_to_equations. lia. }
  assert (H2 : d < DayFromYear (y + 2)).
  { unfold DayFromYear, y. Z.div_mod_to_equations. lia. }
  destruct (Z.ltb_spec d (DayFromYear y)).
  - replace (y - 1 + 1) with y by lia. lia.
  - destruct (Z.leb_spec (DayFromYear (y + 1)) d).
    + replace (y + 1 + 1) with (y + 2) by lia. lia.
    + lia.
Qed.

Lemma YearFromDay_unique (d y : Z) :
  DayFromYear y <= d < DayFromYear (y + 1) -> YearFromDay d = y.
Proof.
  intros H. pose proof (YearFromDay_spec d) as S.
  destruct (Z.lt_trichotomy (YearFromDay d) y) as [L | [E | G]]; [| exact E |].
  - pose proof (DayFromYear_le (YearFromDay d + 1) y ltac:(lia)). lia.
  - pose proof (DayFromYear_le (y + 1) (YearFromDay d) ltac:(lia)). lia.
Qed.

Lemma leapDays_range (y : Z) : 0 <= leapDays y <= 1.
Proof. unfold leapDays. destruct (InLeapYear y); lia. Qed.

Lemma DaysInYear_leap (y : Z) : DaysInYear y = 365 + leapDays y.
Proof. unfold DaysInYear, leapDays. destruct (InLeapYear y); lia. Qed.

Lemma MonthFromDayInYear_range (y w : Z) : 0 <= MonthFromDayInYear y w <= 11.
Proof.
  unfold MonthFromDayInYear.
  repeat match goal with |- context [?a <? ?b] => destruct (a <? b) end; lia.
Qed.

Lemma MakeDay_small_month (y m d : Z) :
  0 <= m <= 11 -> MakeDay y m d = DayFromYear y + monthStart y m + d - 1.
Proof.
  intros H. unfold MakeDay.
  rewrite (Z.div_small m 12), (Z.mod_small m 12) by lia.
  rewrite Z.add_0_r. reflexivity.
Qed.

(** The fields of a day make that day again. *)
Lemma MakeDay_fields (t : Z) :
  MakeDay (YearFromTime t) (MonthFromTime t) (DateFromTime t) = Day t.
Proof.
  rewrite MakeDay_small_month by apply MonthFromDayInYear_range.
  unfold DateFromTime, DayWithinYear. lia.
Qed.

Lemma Day_MakeDate (d s : Z) : 0 <= s < msPerDay -> Day (MakeDate d s) = d.
Proof.
  intros H. unfold Day, MakeDate, msPerDay in *. Z.div_mod_to_equations. lia.
Qed.

Lemma TimeWithinDay_MakeDate (d s : Z) :
  0 <= s < msPerDay -> TimeWithinDay (MakeDate d s) = s.
Proof.
  intros H. unfold TimeWithinDay, MakeDate, msPerDay in *. Z.div_mod_to_equations. lia.
Qed.

Lemma TimeWithinDay_range (t : Z) : 0 <= TimeWithinDay t < msPerDay.
Proof. unfold TimeWithinDay, msPerDay. apply Z.mod_pos_bound. lia. Qed.

Lemma MakeDate_Day (t : Z) : MakeDate (Day t) (TimeWithinDay t) = t.
Proof. unfold MakeDate, Day, TimeWithinDay, msPerDay. Z.div_mod_to_equations. lia. Qed.

(** A day of the month that exists is found again in the fields of its day. *)
Lemma fields_MakeDay (y m d : Z) :
  0 <= m <= 11 -> 1 <= d <= DaysInMonth y (m + 1) ->
  let n := MakeDay y m d in
  YearFromDay n = y /\
  MonthFromDayInYear y (n - DayFromYear y) = m /\
  n - DayFromYear y - monthStart y m + 1 = d.
Proof.
  intros Hm Hd n. subst n. rewrite MakeDay_small_month by assumption.
  pose proof (leapDays_range y) as L.
  assert (Hw : 0 <= monthStart y m + d - 1 < 365 + leapDays y /\
               MonthFromDayInYear y (monthStart y m + d - 1) = m).
  { assert (Hcases : m = 0 \/ m = 1 \/ m = 2 \/ m = 3 \/ m = 4 \/ m = 5 \/ m = 6 \/
                     m = 7 \/ m = 8 \/ m = 9 \/ m = 10 \/ m = 11) by lia.
    unfold MonthFromDayInYear.
    repeat (destruct Hcases as [-> | Hcases]); [.. | subst m];
      match type of Hd with context [DaysInMonth y (?a + 1)] =>
        let v := eval compute in (a + 1) in change (a + 1) with v in Hd
      end;
      cbv beta iota delta [monthStart DaysInMonth] in *;
      split_ltb; lia. }
  destruct Hw as [Hw Hmonth].
  split; [| split].
  - apply YearFromDay_unique. rewrite DayFromYear_succ, DaysInYear_leap. lia.
  - replace (DayFromYear y + monthStart y m + d - 1 - DayFromYear y)
      with (monthStart y m + d - 1) by lia.
    exact Hmonth.
  - lia.
Qed.

(** ** Dates *)

Lemma MakeDay_date_shift (y m d k : Z) : MakeDay y m (d + k) = MakeDay y m d + k.
Proof. unfold MakeDay. lia. Qed.

Lemma well_formed_inv (d : ISODate) :
  well_formed d = true ->
  0 <= year d <= 9999 /\ 1 <= month d <= 12 /\ 1 <= day d <= DaysInMonth (year d) (month d).
Proof.
  unfold well_formed. rewrite !andb_true_iff, !Z.leb_le. lia.
Qed.

Lemma Day_getTime (d : ISODate) : Day (getTime d) = MakeDay (year d) (month d - 1) (day d).
Proof. unfold getTime. apply Day_MakeDate. unfold msPerDay. lia. Qed.

(** A well-formed date string is read back from its time value. *)
Lemma toISODate_getTime (d : ISODate) : well_formed d = true -> toISODate (getTime d) = d.
Proof.
  intros W. apply well_formed_inv in W. destruct W as (_ & Hm & Hd).
  destruct (fields_MakeDay (year d) (month d - 1) (day d)) as (Hy & Hmo & Hda).
  - lia.
  - replace (month d - 1 + 1) with (month d) by lia. exact Hd.
  - unfold toISODate, DateFromTime, MonthFromTime, DayWithinYear, YearFromTime.
    rewrite Day_getTime, Hy, Hmo, Hda.
    destruct d as [y m dd]. cbn [year month day]. f_equal. lia.
Qed.

Lemma getTime_inj (a b : ISODate) :
  well_formed a = true -> well_formed b = true -> getTime a = getTime b -> a = b.
Proof.
  intros Wa Wb E. rewrite <- (toISODate_getTime a Wa), <- (toISODate_getTime b Wb), E.
  reflexivity.
Qed.

Lemma getTime_year_bounds (d : ISODate) :
  well_formed d = true ->
  DayFromYear (year d) * msPerDay <= getTime d < DayFromYear (year d + 1) * msPerDay.
Proof.
  intros W. apply well_formed_inv in W. destruct W as (_ & Hm & Hd).
  destruct (fields_MakeDay (year d) (month d - 1) (day d)) as (Hy & _ & _).
  - lia.
  - replace (month d - 1 + 1) with (month d) by lia. exact Hd.
  - pose proof (YearFromDay_spec (MakeDay (year d) (month d - 1) (day d))) as S.
    rewrite Hy in S. unfold getTime, MakeDate, msPerDay. lia.
Qed.

(** From year 100 on the timestamp of a date is its time value in seconds. *)
Lemma dateToUTCTimestamp_getTime (d : ISODate) :
  100 <= year d -> 1000 * dateToUTCTimestamp d = getTime d.
Proof.
  intros H. unfold dateToUTCTimestamp, Date_UTC, getTime, MakeFullYear.
  destruct (Z.leb_spec (year d) 99); [lia |].
  rewrite andb_false_r. unfold MakeDate, msPerDay.
  Z.div_mod_to_equations. lia.
Qed.

(** [result.setDate(result.getDate() - 1)] moves a date back by 24 hours. *)
Lemma setDate_previous (tz r : Z) : setDate tz r (getDate tz r - 1) = r - msPerDay.
Proof.
  unfold setDate, getDate, UTC. set (l := LocalTime tz r).
  replace (DateFromTime l - 1) with (DateFromTime l + -1) by lia.
  rewrite MakeDay_date_shift, MakeDay_fields.
  pose proof (MakeDate_Day l) as E. unfold MakeDate in *. unfold l, LocalTime in *. lia.
Qed.

Lemma setFullYear_minusYears (tz t n : Z) :
  setFullYear tz t (getFullYear tz t - n) = minusYears tz t n.
Proof. unfold setFullYear, getFullYear, minusYears. reflexivity. Qed.

Lemma DateFromTime_pos (t : Z) : 1 <= DateFromTime t.
Proof.
  unfold DateFromTime, MonthFromTime, MonthFromDayInYear.
  pose proof (YearFromDay_spec (Day t)) as S. fold (YearFromTime t) in S.
  unfold DayWithinYear. pose proof (leapDays_range (YearFromTime t)).
  split_ltb; cbv beta iota delta [monthStart]; lia.
Qed.

Lemma MonthFromTime_range (t : Z) : 0 <= MonthFromTime t <= 11.
Proof. apply MonthFromDayInYear_range. Qed.

(** Taking [n] years off keeps month, day and time of day when that day
    exists in the earlier year. *)
Lemma localFields_minusYears (tz t n y m d s : Z) :
  localFields tz t = (y, m, d, s) ->
  d <= DaysInMonth (y - n) m ->
  localFields tz (minusYears tz t n) = (y - n, m, d, s).
Proof.
  unfold localFields, minusYears, UTC. set (l := LocalTime tz t).
  intros E Hd. injection E as Ey Em Ed Es.
  pose proof (MonthFromTime_range l) as Hm.
  pose proof (DateFromTime_pos l) as Hd1.
  pose proof (TimeWithinDay_range l) as Hs.
  unfold LocalTime.
  match goal with |- context [?a - tz + tz] => replace (a - tz + tz) with a by lia end.
  destruct (fields_MakeDay (YearFromTime l - n) (MonthFromTime l) (DateFromTime l))
    as (Hy & Hmo & Hda).
  - exact Hm.
  - rewrite Ey, Em, Ed. lia.
  - revert Hy Hmo Hda.
    generalize (MakeDay (YearFromTime l - n) (MonthFromTime l) (DateFromTime l)) as k.
    intros k Hy Hmo Hda.
    unfold DateFromTime, MonthFromTime, DayWithinYear, YearFromTime.
    rewrite !Day_MakeDate, TimeWithinDay_MakeDate by exact Hs.
    fold (YearFromTime l). fold (DayWithinYear l). fold (MonthFromTime l).
    rewrite Hy, Hmo, Hda, Ey, Em, Ed, Es.
    replace (m - 1 + 1) with m by lia. reflexivity.
Qed.

Lemma fields_of_time (t y m d : Z) :
  0 <= m <= 11 -> 1 <= d <= DaysInMonth y (m + 1) -> Day t = MakeDay y m d ->
  YearFromTime t = y /\ MonthFromTime t = m /\ DateFromTime t = d.
Proof.
  intros Hm Hd E. destruct (fields_MakeDay y m d Hm Hd) as (Hy & Hmo & Hda).
  unfold DateFromTime, MonthFromTime, DayWithinYear, YearFromTime.
  rewrite E, Hy, Hmo. auto.
Qed.

Lemma getTime_nonneg (d : ISODate) :
  well_formed d = true -> 1970 <= year d -> 0 <= getTime d.
Proof.
  intros W Hy. pose proof (getTime_year_bounds d W) as [L _].
  pose proof (DayFromYear_le 1970 (year d) Hy) as M.
  change (DayFromYear 1970) with 0 in M. unfold msPerDay in L. lia.
Qed.

(** ** The resolver of the start date *)

(** C3. For every token other than "all", [getTimeframeStartDate] is the
    resolver of the specification: the end date moved back by the token's
    number of calendar years (1 for "1y", 3 for "3y", 5 for "5y", and 1 again
    for any unrecognized token, which therefore behaves as "1y"), then by
    one more day.  Moving back [n] years keeps the local month, day and time
    of day whenever that day exists [n] years earlier.  In particular an end
    date on 2024-06-15 with "1y" gives 2023-06-14, at the same time of day. *)
Theorem getTimeframeStartDate_years (tz endDate : Z) (option : string) :
  option <> "all"%string ->
  (yearsOf "1y" = 1 /\ yearsOf "3y" = 3 /\ yearsOf "5y" = 5) /\
  getTimeframeStartDate tz endDate option = resolveStart tz endDate option /\
  (option <> "3y"%string -> option <> "5y"%string ->
   getTimeframeStartDate tz endDate option = getTimeframeStartDate tz endDate "1y") /\
  (forall y m d s,
     localFields tz endDate = (y, m, d, s) ->
     d <= DaysInMonth (y - yearsOf option) m ->
     localFields tz (minusYears tz endDate (yearsOf option)) = (y - yearsOf option, m, d, s)) /\
  (forall s,
     localFields tz endDate = (2024, 6, 15, s) ->
     localFields tz (getTimeframeStartDate tz endDate "1y") = (2023, 6, 14, s)).
Proof.
  intros Hall.
  assert (Heq : forall o, o <> "all"%string ->
            getTimeframeStartDate tz endDate o = resolveStart tz endDate o).
  { intros o Ho. unfold getTimeframeStartDate, resolveStart, yearsOf.
    destruct (String.eqb_spec o "1y") as [-> | H1]; cbn [String.eqb Ascii.eqb Bool.eqb].
    - rewrite setDate_previous, setFullYear_minusYears. reflexivity.
    - destruct (String.eqb_spec o "3y") as [-> | H3].
      + rewrite setDate_previous, setFullYear_minusYears. reflexivity.
      + destruct (String.eqb_spec o "5y") as [-> | H5].
        * rewrite setDate_previous, setFullYear_minusYears. reflexivity.
        * destruct (String.eqb_spec o "all") as [-> | H4]; [contradiction |].
          rewrite setDate_previous, setFullYear_minusYears. reflexivity. }
  split; [repeat split |].
  split; [apply Heq, Hall |].
  split.
  { intros H3 H5. rewrite (Heq option Hall), (Heq "1y"%string) by discriminate.
    unfold resolveStart, yearsOf.
    destruct (String.eqb_spec option "3y"); [contradiction |].
    destruct (String.eqb_spec option "5y"); [contradiction |]. reflexivity. }
  split.
  { intros y m d s. apply localFields_minusYears. }
  intros s E.
  rewrite (Heq "1y"%string) by discriminate.
  unfold resolveStart. change (yearsOf "1y") with 1.
  pose proof (localFields_minusYears tz endDate 1 2024 6 15 s E) as F.
  specialize (F ltac:(vm_compute; discriminate)).
  change (2024 - 1) with 2023 in F.
  revert F. generalize (minusYears tz endDate 1) as r. intros r F.
  unfold localFields in *. injection F as Fy Fm Fd Fs.
  set (l := LocalTime tz r) in *.
  replace (LocalTime tz (r - msPerDay)) with (l - msPerDay) by (unfold l, LocalTime; lia).
  assert (Dl : Day (l - msPerDay) = Day l - 1).
  { unfold Day, msPerDay. Z.div_mod_to_equations. lia. }
  assert (Tl : TimeWithinDay (l - msPerDay) = TimeWithinDay l).
  { unfold TimeWithinDay, msPerDay. Z.div_mod_to_equations. lia. }
  destruct (fields_of_time (l - msPerDay) 2023 5 14) as (Gy & Gm & Gd).
  - lia.
  - vm_compute. split; discriminate.
  - rewrite Dl, <- (MakeDay_fields l), Fy, Fd.
    replace (MonthFromTime l) with 5 by lia. reflexivity.
  - rewrite Gy, Gm, Gd, Tl, Fs. reflexivity.
Qed.

Lemma getTimeframeStartDate_years_witness :
  "1y"%string <> "all"%string /\
  getTimeframeStartDate 0 (getTime (mkDate 2024 6 15)) "1y" = getTime (mkDate 2023 6 14).
Proof.
  split; [discriminate |].
  destruct (getTimeframeStartDate_years 0 (getTime (mkDate 2024 6 15)) "1y"
              ltac:(discriminate)) as (_ & E & _).
  rewrite E. vm_compute. reflexivity.
Defined.

(** C4 as stated fails: with "all" the start is the epoch, 1970-01-01, which
    is not before 1900-01-01. *)
Lemma all_time_start_not_before_1900 :
  ~ getTimeframeStartDate 0 (getTime (mkDate 2024 6 15)) "all" < getTime (mkDate 1900 1 1).
Proof. vm_compute. discriminate. Qed.

(** C4, amended. With "all", [getTimeframeStartDate] returns the time value 0
    whatever the end date and the time zone, with no step back by a day: the
    epoch, midnight of 1970-01-01 UTC.  It is on or before every date from
    1970-01-01 on, and it is after 1900-01-01. *)
Theorem getTimeframeStartDate_all (tz endDate : Z) :
  getTimeframeStartDate tz endDate "all" = 0 /\
  toISODate 0 = mkDate 1970 1 1 /\
  TimeWithinDay 0 = 0 /\
  (forall d, well_formed d = true -> 1970 <= year d ->
     getTimeframeStartDate tz endDate "all" <= getTime d) /\
  getTime (mkDate 1900 1 1) < getTimeframeStartDate tz endDate "all".
Proof.
  assert (E : getTimeframeStartDate tz endDate "all" = 0) by reflexivity.
  rewrite E. repeat split.
  - intros d W Hy. apply getTime_nonneg; assumption.
Qed.

Lemma getTimeframeStartDate_all_witness :
  getTimeframeStartDate 0 (getTime (mkDate 2024 6 15)) "all" <= getTime (mkDate 1970 1 2).
Proof.
  destruct (getTimeframeStartDate_all 0 (getTime (mkDate 2024 6 15))) as (_ & _ & _ & H & _).
  apply H; [reflexivity | vm_compute; discriminate].
Defined.

(** ** Arrays *)

Section ArrayFacts.
Context {A : Type}.
Implicit Types (l : list A) (p : A -> bool).

Lemma findIndexFrom_spec p l (k : Z) :
  (JS.findIndexFrom p l k = -1 /\ forall x, In x l -> p x = false) \/
  (exists (i : nat) (x : A),
     JS.findIndexFrom p l k = k + Z.of_nat i /\
     nth_error l i = Some x /\ p x = true /\
     forall j y, (j < i)%nat -> nth_error l j = Some y -> p y = false).
Proof.
  revert k. induction l as [| a l IH]; intros k; cbn [JS.findIndexFrom].
  - left. split; [reflexivity | intros x []].
  - destruct (p a) eqn:Pa.
    + right. exists 0%nat, a. repeat split; [lia | assumption | intros j y Hj; lia].
    + destruct (IH (k + 1)) as [[E N] | (i & x & E & Hn & Px & Hlt)].
      * left. split; [exact E |]. intros x [<- | Hx]; [exact Pa | apply N, Hx].
      * right. exists (S i), x. repeat split; [lia | exact Hn | exact Px |].
        intros [| j] y Hj Hy; cbn in Hy.
        -- injection Hy as <-. exact Pa.
        -- apply (Hlt j); [lia | exact Hy].
Qed.

Lemma at_nth_error l (i : nat) : JS.at_ l (Z.of_nat i) = nth_error l i.
Proof.
  unfold JS.at_. destruct (Z.ltb_spec (Z.of_nat i) 0); [lia |].
  rewrite Nat2Z.id. reflexivity.
Qed.

Lemma at_last l (d : A) : l <> [] -> JS.at_ l (JS.length l - 1) = Some (last l d).
Proof.
  intros Hl. unfold JS.length.
  destruct l as [| a l']; [contradiction |].
  replace (Z.of_nat (List.length (a :: l')) - 1) with (Z.of_nat (List.length l'))
    by (cbn [List.length]; lia).
  rewrite at_nth_error. clear Hl. revert a.
  induction l' as [| b l' IH]; intros a; [reflexivity |].
  cbn [List.length nth_error]. rewrite (IH b). reflexivity.
Qed.

Lemma In_insert (cmp : A -> A -> Z) (x y : A) l :
  In y (JS.insert cmp x l) <-> y = x \/ In y l.
Proof.
  induction l as [| a l IH]; cbn [JS.insert].
  - cbn. intuition congruence.
  - destruct (cmp x a <=? 0); cbn [In]; [intuition congruence |].
    rewrite IH. intuition congruence.
Qed.

Lemma In_sort (cmp : A -> A -> Z) (y : A) l : In y (JS.sort cmp l) <-> In y l.
Proof.
  induction l as [| a l IH]; cbn [JS.sort]; [reflexivity |].
  rewrite In_insert, IH. cbn [In]. intuition congruence.
Qed.

Lemma length_insert (cmp : A -> A -> Z) (x : A) l :
  List.length (JS.insert cmp x l) = S (List.length l).
Proof.
  induction l as [| a l IH]; cbn [JS.insert]; [reflexivity |].
  destruct (cmp x a <=? 0); cbn [List.length]; [reflexivity | rewrite IH; reflexivity].
Qed.

Lemma length_sort (cmp : A -> A -> Z) l : List.length (JS.sort cmp l) = List.length l.
Proof.
  induction l as [| a l IH]; cbn [JS.sort]; [reflexivity |].
  rewrite length_insert, IH. reflexivity.
Qed.

End ArrayFacts.

(** ** The defensive sort *)

Lemma Permutation_insert {A : Type} (cmp : A -> A -> Z) (x : A) (l : list A) :
  Permutation (JS.insert cmp x l) (x :: l).
Proof.
  induction l as [| a l IH]; cbn [JS.insert]; [reflexivity |].
  destruct (cmp x a <=? 0); [reflexivity |].
  rewrite IH. apply perm_swap.
Qed.

Lemma Permutation_sort {A : Type} (cmp : A -> A -> Z) (l : list A) :
  Permutation (JS.sort cmp l) l.
Proof.
  induction l as [| a l IH]; cbn [JS.sort]; [reflexivity |].
  rewrite Permutation_insert, IH. reflexivity.
Qed.

Lemma insert_ascending (x : StockPriceData) (l : list StockPriceData) :
  ascending l -> ascending (JS.insert byDate x l).
Proof.
  unfold ascending. induction 1 as [| a l Hl IH Ha]; cbn [JS.insert].
  - constructor; constructor.
  - destruct (Z.leb_spec (byDate x a) 0) as [Hle | Hgt].
    + constructor; [constructor; assumption |].
      constructor.
      * unfold notAfter, byDate in *. lia.
      * eapply Forall_impl; [| exact Ha].
        intros b Hb. unfold notAfter, byDate in *. lia.
    + constructor; [exact IH |].
      apply Forall_forall. intros b Hb. apply In_insert in Hb.
      destruct Hb as [-> | Hb].
      * unfold notAfter, byDate in *. lia.
      * rewrite Forall_forall in Ha. apply Ha, Hb.
Qed.

Lemma sort_ascending (l : list StockPriceData) : ascending (JS.sort byDate l).
Proof.
  induction l as [| a l IH]; cbn [JS.sort]; [constructor |].
  apply insert_ascending, IH.
Qed.

(** A series that is ascending already is left as it is. *)
Lemma sort_of_ascending (l : list StockPriceData) : ascending l -> JS.sort byDate l = l.
Proof.
  unfold ascending. induction 1 as [| a l Hl IH Ha]; cbn [JS.sort]; [reflexivity |].
  rewrite IH. destruct l as [| b l']; [reflexivity |].
  cbn [JS.insert]. inversion Ha as [| ? ? Hab _]; subst.
  destruct (Z.leb_spec (byDate a b) 0); [reflexivity |].
  unfold notAfter, byDate in *. lia.
Qed.

Lemma StronglySorted_skipn {A : Type} (R : A -> A -> Prop) (n : nat) (l : list A) :
  StronglySorted R l -> StronglySorted R (skipn n l).
Proof.
  revert l. induction n as [| n IH]; intros l H; [exact H |].
  destruct l as [| a l]; [constructor |].
  cbn [skipn]. apply IH. inversion H; assumption.
Qed.

Lemma StronglySorted_map {A B : Type} (R : A -> A -> Prop) (Q : B -> B -> Prop)
    (f : A -> B) (l : list A) :
  (forall a b, In a l -> In b l -> R a b -> Q (f a) (f b)) ->
  StronglySorted R l -> StronglySorted Q (map f l).
Proof.
  intros Hf H. induction H as [| a l Hl IH Ha]; cbn [map]; [constructor |].
  constructor.
  - apply IH. intros x y Hx Hy. apply Hf; right; assumption.
  - rewrite Forall_forall in *. intros y Hy. apply in_map_iff in Hy.
    destruct Hy as (x & <- & Hx). apply Hf; [left; reflexivity | right; exact Hx | apply Ha, Hx].
Qed.

(** With well-formed, pairwise distinct dates an ascending series ascends
    strictly. *)
Lemma ascending_strict (l : list StockPriceData) :
  Forall (fun p => well_formed (date p) = true) l ->
  NoDup (map date l) ->
  ascending l -> StronglySorted before l.
Proof.
  unfold ascending. intros W N H.
  induction H as [| a l Hl IH Ha]; [constructor |].
  inversion W as [| ? ? Wa Wl]; subst. cbn [map] in N. inversion N as [| ? ? Na Nl]; subst.
  constructor; [apply IH; assumption |].
  rewrite Forall_forall in *. intros b Hb.
  specialize (Ha b Hb). unfold notAfter, before in *.
  destruct (Z.eq_dec (getTime (date a)) (getTime (date b))) as [E | NE]; [| lia].
  exfalso. apply Na. apply getTime_inj in E; [| exact Wa | apply Wl, Hb].
  rewrite E. apply in_map, Hb.
Qed.

(** ** The normalizer *)

Lemma fold_left_emit (startPrice : number) (l : list StockPriceData) (acc : list PerformancePoint) :
  fold_left (emit startPrice) l acc = acc ++ map (rebased startPrice) l.
Proof.
  revert acc. induction l as [| p l IH]; intros acc; cbn [fold_left map].
  - rewrite app_nil_r. reflexivity.
  - rewrite IH. unfold emit, JS.push, rebased. rewrite <- app_assoc. reflexivity.
Qed.

Lemma skipn_nth_error_cons {A : Type} (l : list A) (i : nat) (x : A) :
  nth_error l i = Some x -> skipn i l = x :: skipn (S i) l.
Proof.
  revert l. induction i as [| i IH]; intros [| a l] H; try discriminate.
  - injection H as <-. reflexivity.
  - cbn [nth_error] in H. cbn [skipn]. rewrite (IH l H). reflexivity.
Qed.

(** What [processData] computes, case by case: nothing is dated on or after
    the start, or there is a first such point [base] and the result depends
    on the guard of its price. *)
Lemma processData_cases (first : StockData) (rest : list StockData) (startDate : Z) :
  let sorted := JS.sort byDate (prices first) in
  (processData (first :: rest) startDate = None /\
   forall p, In p (prices first) -> getTime (date p) < startDate) \/
  (exists (i : nat) (base : StockPriceData),
     firstOnOrAfter startDate sorted i base /\
     processData (first :: rest) startDate =
       if leb (price base) zero then None
       else
         let emitted := map (rebased (price base)) (skipn i sorted) in
         Some {| series := emitted;
                 finalValue := value (last emitted (rebased (price base) base)) |}).
Proof.
  intros sorted. unfold processData. fold sorted.
  destruct (Z.eqb_spec (JS.length (prices first)) 0) as [E0 | N0].
  { left. split; [reflexivity |].
    unfold JS.length in E0. destruct (prices first); [intros p [] | cbn in E0; lia]. }
  destruct (findIndexFrom_spec (onOrAfter startDate) sorted 0)
    as [[E N] | (i & base & E & Hn & Pb & Hlt)]; unfold JS.findIndex; rewrite E.
  - left. split; [reflexivity |].
    intros p Hp. apply (In_sort byDate) in Hp. fold sorted in Hp.
    specialize (N p Hp). unfold onOrAfter in N. lia.
  - right. exists i, base. split.
    + split; [exact Hn | split].
      * unfold onOrAfter in Pb. lia.
      * intros j q Hj Hq. specialize (Hlt j q Hj Hq). unfold onOrAfter in Hlt. lia.
    + assert (Hi : (i < List.length sorted)%nat) by (apply nth_error_Some; congruence).
      cbn [Z.add].
      destruct (Z.eqb_spec (Z.of_nat i) (-1)); [lia |].
      destruct (Z.geb_spec (Z.of_nat i) (JS.length sorted)) as [G | _];
        [unfold JS.length in G; lia |].
      cbn [orb]. rewrite at_nth_error, Hn.
      destruct (leb (price base) zero); [reflexivity |].
      unfold JS.slice. rewrite Nat2Z.id, fold_left_emit. cbn [app].
      cbv zeta. set (emitted := map (rebased (price base)) (skipn i sorted)).
      assert (Hne : emitted <> []).
      { unfold emitted. rewrite (skipn_nth_error_cons _ _ _ Hn). discriminate. }
      destruct (Z.gtb_spec (JS.length emitted) 0) as [_ | L].
      * rewrite (at_last emitted (rebased (price base) base) Hne). reflexivity.
      * exfalso. unfold JS.length in L. destruct emitted; [contradiction | cbn in L; lia].
Qed.

Lemma firstOnOrAfter_unique (startDate : Z) (l : list StockPriceData)
    (i j : nat) (p q : StockPriceData) :
  firstOnOrAfter startDate l i p -> firstOnOrAfter startDate l j q -> i = j /\ p = q.
Proof.
  intros (Hp & Sp & Lp) (Hq & Sq & Lq).
  assert (i = j).
  { destruct (Nat.lt_total i j) as [L | [E | L]]; [| exact E |].
    - specialize (Lq i p L Hp). lia.
    - specialize (Lp j q L Hq). lia. }
  subst j. split; [reflexivity | congruence].
Qed.

Lemma firstOnOrAfter_In (startDate : Z) (l : list StockPriceData) (i : nat) (p : StockPriceData) :
  firstOnOrAfter startDate l i p -> In p l.
Proof. intros (Hp & _). eapply nth_error_In, Hp. Qed.

(** C1. When [processData] returns a result, there is a first point [base]
    dated on or after the start date, at index [i] of the series in
    ascending date order (the input itself when it is ascending already),
    and the emitted series is, in order, one point for each entry from
    index [i] to the end: its time is the timestamp of the entry's date and
    its value is 100 * (price / price of [base]).  The emitted series is not
    empty, so [finalValue] is the value of its last point and never the
    fallback 100.  (The timestamp of a date of year 100 or later is its UTC
    midnight in seconds.) *)
Theorem processData_series (first : StockData) (rest : list StockData)
    (startDate : Z) (r : Processed) :
  processData (first :: rest) startDate = Some r ->
  let sorted := JS.sort byDate (prices first) in
  Permutation sorted (prices first) /\ ascending sorted /\
  (ascending (prices first) -> sorted = prices first) /\
  (forall p, 100 <= year (date p) -> 1000 * dateToUTCTimestamp (date p) = getTime (date p)) /\
  exists (i : nat) (base : StockPriceData),
    firstOnOrAfter startDate sorted i base /\
    series r =
      map (fun p => {| time := dateToUTCTimestamp (date p);
                       value := mul hundred (div (price p) (price base)) |})
          (skipn i sorted) /\
    List.length (series r) = (List.length (prices first) - i)%nat /\
    series r <> [] /\
    finalValue r = value (last (series r) (rebased (price base) base)).
Proof.
  intros H sorted.
  split; [apply Permutation_sort |].
  split; [apply sort_ascending |].
  split; [apply sort_of_ascending |].
  split; [intros p; apply dateToUTCTimestamp_getTime |].
  destruct (processData_cases first rest startDate) as [[E _] | (i & base & F & E)];
    [congruence |].
  fold sorted in F, E. rewrite E in H.
  destruct (leb (price base) zero); [discriminate |].
  injection H as <-. cbn [series finalValue].
  exists i, base. split; [exact F |]. split; [reflexivity |].
  destruct F as (Hn & _).
  split.
  - rewrite length_map, length_skipn. unfold sorted. rewrite length_sort. reflexivity.
  - split; [| reflexivity].
    fold (rebased (price base)). rewrite (skipn_nth_error_cons _ _ _ Hn). discriminate.
Qed.

Lemma processData_series_witness :
  exists r,
    processData
      [mkStock "AAPL"
         [mkPrice (mkDate 2024 1 3) (ofZ 150); mkPrice (mkDate 2024 1 2) (ofZ 100);
          mkPrice (mkDate 2023 12 29) (ofZ 90)] None]
      (getTime (mkDate 2024 1 1)) = Some r /\
    series r <> [].
Proof.
  eexists. split; [reflexivity |].
  destruct (processData_series
           (mkStock "AAPL"
              [mkPrice (mkDate 2024 1 3) (ofZ 150); mkPrice (mkDate 2024 1 2) (ofZ 100);
               mkPrice (mkDate 2023 12 29) (ofZ 90)] None)
           [] (getTime (mkDate 2024 1 1)) _ eq_refl)
    as (_ & _ & _ & _ & i & base & _ & _ & _ & Hne & _).
  exact Hne.
Defined.

Lemma last_In {A : Type} (l : list A) (d : A) : l <> [] -> In (last l d) l.
Proof.
  induction l as [| a l IH]; [contradiction |]. intros _.
  destruct l as [| b l']; [left; reflexivity |].
  right. apply IH. discriminate.
Qed.

(** C2. For a non-empty series and a start date on or before its last date,
    if the first point dated on or after the start has a positive price,
    [processData] returns a result whose first point has value exactly 100. *)
Theorem first_point_is_100 (first : StockData) (rest : list StockData)
    (startDate : Z) (d : StockPriceData) :
  prices first <> [] ->
  let sorted := JS.sort byDate (prices first) in
  startDate <= getTime (date (last sorted d)) ->
  (forall i base, firstOnOrAfter startDate sorted i base -> positive_real (price base) = true) ->
  exists r p0,
    processData (first :: rest) startDate = Some r /\
    hd_error (series r) = Some p0 /\
    value p0 = hundred.
Proof.
  intros Hne sorted Hlast Hpos.
  assert (Hs : sorted <> []).
  { intros E. apply Hne. apply length_zero_iff_nil.
    rewrite <- (length_sort byDate). fold sorted. rewrite E. reflexivity. }
  destruct (processData_cases first rest startDate) as [[_ N] | (i & base & F & E)].
  - pose proof (last_In sorted d Hs) as Hin. apply In_sort in Hin.
    specialize (N _ Hin). lia.
  - fold sorted in F, E. pose proof (Hpos i base F) as P.
    rewrite (positive_real_not_leb _ P) in E.
    destruct F as (Hn & _).
    eexists. exists (rebased (price base) base).
    split; [exact E |]. cbn [series].
    rewrite (skipn_nth_error_cons _ _ _ Hn). cbn [map hd_error].
    split; [reflexivity |]. cbn [rebased value]. apply rebase_self, P.
Qed.

Lemma first_point_is_100_witness :
  exists r p0,
    processData
      [mkStock "MSFT"
         [mkPrice (mkDate 2024 1 2) (ofZ 3); mkPrice (mkDate 2024 1 3) (ofZ 7)] None]
      (getTime (mkDate 2024 1 1)) = Some r /\
    hd_error (series r) = Some p0 /\
    value p0 = hundred.
Proof.
  apply (first_point_is_100
           (mkStock "MSFT"
              [mkPrice (mkDate 2024 1 2) (ofZ 3); mkPrice (mkDate 2024 1 3) (ofZ 7)] None)
           [] (getTime (mkDate 2024 1 1)) (mkPrice (mkDate 2024 1 2) (ofZ 3))).
  - discriminate.
  - vm_compute. discriminate.
  - intros i base (Hn & _).
    apply nth_error_In in Hn. vm_compute in Hn.
    destruct Hn as [<- | [<- | []]]; reflexivity.
Defined.

(** C5 as stated fails: the result is absent although a point is dated on the
    start date, because its price is zero. *)
Lemma absent_with_base_point :
  processData [mkStock "X" [mkPrice (mkDate 2024 1 2) zero] None]
    (getTime (mkDate 2024 1 2)) = None /\
  firstOnOrAfter (getTime (mkDate 2024 1 2))
    (JS.sort byDate [mkPrice (mkDate 2024 1 2) zero]) 0 (mkPrice (mkDate 2024 1 2) zero).
Proof.
  split; [reflexivity |].
  split; [reflexivity |]. split; [vm_compute; discriminate |].
  intros j q Hj. inversion Hj.
Qed.

(** C5, amended. [processData] returns absent for an empty array, for an
    empty series and for a series with no point dated on or after the start
    date; and it returns absent exactly when no point is dated on or after
    the start date or the first such point has a price [<= 0]. *)
Theorem processData_absent_iff (first : StockData) (rest : list StockData) (startDate : Z) :
  let sorted := JS.sort byDate (prices first) in
  processData [] startDate = None /\
  (prices first = [] -> processData (first :: rest) startDate = None) /\
  ((forall p, In p (prices first) -> getTime (date p) < startDate) ->
   processData (first :: rest) startDate = None) /\
  (processData (first :: rest) startDate = None <->
   (forall p, In p (prices first) -> getTime (date p) < startDate) \/
   (exists i base, firstOnOrAfter startDate sorted i base /\ leb (price base) zero = true)).
Proof.
  intros sorted.
  assert (Hnone : (forall p, In p (prices first) -> getTime (date p) < startDate) ->
                  processData (first :: rest) startDate = None).
  { intros N.
    destruct (processData_cases first rest startDate) as [[E _] | (i & base & F & _)];
      [exact E |].
    apply firstOnOrAfter_In in F as Hin. apply In_sort in Hin.
    destruct F as (_ & S & _). specialize (N _ Hin). lia. }
  split; [reflexivity |].
  split; [intros E; apply Hnone; rewrite E; intros p [] |].
  split; [exact Hnone |].
  split.
  - intros H.
    destruct (processData_cases first rest startDate) as [[_ N] | (i & base & F & E)].
    + left. exact N.
    + right. exists i, base. split; [exact F |].
      rewrite E in H. destruct (leb (price base) zero); [reflexivity | discriminate].
  - intros [N | (i & base & F & L)]; [apply Hnone, N |].
    destruct (processData_cases first rest startDate) as [[E _] | (i' & base' & F' & E)];
      [exact E |].
    destruct (firstOnOrAfter_unique _ _ _ _ _ _ F F') as [<- <-].
    rewrite E, L. reflexivity.
Qed.

Lemma processData_absent_iff_witness :
  processData
    [mkStock "X" [mkPrice (mkDate 2023 5 1) (ofZ 10); mkPrice (mkDate 2023 5 2) (ofZ 11)] None]
    (getTime (mkDate 2024 1 1)) = None.
Proof.
  destruct (processData_absent_iff
              (mkStock "X" [mkPrice (mkDate 2023 5 1) (ofZ 10); mkPrice (mkDate 2023 5 2) (ofZ 11)] None)
              [] (getTime (mkDate 2024 1 1))) as (_ & _ & H & _).
  apply H. intros p [<- | [<- | []]]; vm_compute; reflexivity.
Defined.

(** C6. If the price of the first point dated on or after the start is
    [<= 0], [processData] returns absent; so whenever it returns a result the
    divisor of every emitted value, the price of that point, is not [<= 0].
    In particular a single point of price 0 dated on the start date gives
    absent. *)
Theorem nonpositive_base_is_absent (first : StockData) (rest : list StockData) (startDate : Z) :
  let sorted := JS.sort byDate (prices first) in
  (forall i base,
     firstOnOrAfter startDate sorted i base -> leb (price base) zero = true ->
     processData (first :: rest) startDate = None) /\
  (forall r,
     processData (first :: rest) startDate = Some r ->
     exists i base,
       firstOnOrAfter startDate sorted i base /\
       leb (price base) zero = false /\
       series r =
         map (fun p => {| time := dateToUTCTimestamp (date p);
                          value := mul hundred (div (price p) (price base)) |})
             (skipn i sorted)) /\
  (forall d0 symbol name,
     processData [mkStock symbol [mkPrice d0 zero] name] (getTime d0) = None).
Proof.
  intros sorted. split; [| split].
  - intros i base F L.
    destruct (processData_cases first rest startDate) as [[E _] | (i' & base' & F' & E)];
      [exact E |].
    destruct (firstOnOrAfter_unique _ _ _ _ _ _ F F') as [<- <-].
    rewrite E, L. reflexivity.
  - intros r H.
    destruct (processData_cases first rest startDate) as [[E _] | (i & base & F & E)];
      [congruence |].
    rewrite E in H. exists i, base. split; [exact F |].
    destruct (leb (price base) zero); [discriminate |].
    injection H as <-. split; reflexivity.
  - intros d0 symbol name. unfold processData.
    cbn [prices JS.length List.length JS.sort JS.insert Z.of_nat Pos.of_succ_nat Z.eqb].
    unfold JS.findIndex. cbn [JS.findIndexFrom]. unfold onOrAfter. cbn [date].
    destruct (Z.geb_spec (getTime d0) (getTime d0)) as [_ | L]; [| lia].
    reflexivity.
Qed.

Lemma nonpositive_base_is_absent_witness :
  processData
    [mkStock "X" [mkPrice (mkDate 2024 3 1) (ofZ (-4)); mkPrice (mkDate 2024 3 4) (ofZ 5)] None]
    (getTime (mkDate 2024 2 1)) = None.
Proof.
  destruct (nonpositive_base_is_absent
              (mkStock "X" [mkPrice (mkDate 2024 3 1) (ofZ (-4)); mkPrice (mkDate 2024 3 4) (ofZ 5)] None)
              [] (getTime (mkDate 2024 2 1))) as (H & _).
  apply (H 0%nat (mkPrice (mkDate 2024 3 1) (ofZ (-4)))).
  - split; [reflexivity |]. split; [vm_compute; discriminate |].
    intros j q Hj. inversion Hj.
  - reflexivity.
Defined.

(** ** The times of the series *)

Lemma DayFromYear_gap (a b : Z) : a <= b -> DayFromYear a + 365 * (b - a) <= DayFromYear b.
Proof. unfold DayFromYear. intros H. Z.div_mod_to_equations. lia. Qed.

Lemma monthStart_close (y y' m : Z) : monthStart y m <= monthStart y' m + 1.
Proof.
  pose proof (leapDays_range y). pose proof (leapDays_range y').
  unfold monthStart.
  destruct m as [| p | p]; try lia.
  do 4 (destruct p as [p | p |]; try lia).
Qed.

Lemma minusYears_zero (tz t : Z) : minusYears tz t 0 = t.
Proof.
  unfold minusYears, UTC. rewrite Z.sub_0_r, MakeDay_fields, MakeDate_Day.
  unfold LocalTime. lia.
Qed.

(** More years back is earlier, by more than 364 days a year. *)
Lemma minusYears_lt (tz t n n' : Z) :
  n < n' -> minusYears tz t n' + 364 * msPerDay <= minusYears tz t n.
Proof.
  intros H. unfold minusYears, UTC, MakeDate. set (l := LocalTime tz t).
  pose proof (MonthFromTime_range l) as Hm.
  rewrite !MakeDay_small_month by exact Hm.
  pose proof (DayFromYear_gap (YearFromTime l - n') (YearFromTime l - n) ltac:(lia)).
  pose proof (monthStart_close (YearFromTime l - n') (YearFromTime l - n) (MonthFromTime l)).
  unfold msPerDay. nia.
Qed.

(** Outside of "all" the function is the resolver of the vocabulary. *)
Lemma getTimeframeStartDate_resolve (tz endDate : Z) (option : string) :
  option <> "all"%string ->
  getTimeframeStartDate tz endDate option = resolveStart tz endDate option.
Proof.
  intros Ho. unfold getTimeframeStartDate, resolveStart, yearsOf.
  destruct (String.eqb_spec option "1y") as [-> | H1]; cbn [String.eqb Ascii.eqb Bool.eqb].
  - rewrite setDate_previous, setFullYear_minusYears. reflexivity.
  - destruct (String.eqb_spec option "3y") as [-> | H3].
    + rewrite setDate_previous, setFullYear_minusYears. reflexivity.
    + destruct (String.eqb_spec option "5y") as [-> | H5].
      * rewrite setDate_previous, setFullYear_minusYears. reflexivity.
      * destruct (String.eqb_spec option "all") as [-> | H4]; [contradiction |].
        rewrite setDate_previous, setFullYear_minusYears. reflexivity.
Qed.

Lemma yearsOf_odd (option : string) :
  yearsOf option = 1 \/ yearsOf option = 3 \/ yearsOf option = 5.
Proof.
  unfold yearsOf. destruct (option =? "3y")%string; [auto |].
  destruct (option =? "5y")%string; auto.
Qed.

Lemma DayFromYear_span (a b : Z) : a <= b -> DayFromYear b <= DayFromYear a + 366 * (b - a).
Proof. unfold DayFromYear. intros H. Z.div_mod_to_equations. lia. Qed.

(** Going [n] years back goes no further than [n] leap years and a day. *)
Lemma minusYears_near (tz t n : Z) :
  0 <= n -> t - (366 * n + 1) * msPerDay <= minusYears tz t n.
Proof.
  intros H. pose proof (minusYears_zero tz t) as E0. revert E0.
  unfold minusYears, UTC, MakeDate. set (l := LocalTime tz t).
  pose proof (MonthFromTime_range l) as Hm.
  rewrite !MakeDay_small_month by exact Hm.
  pose proof (DayFromYear_span (YearFromTime l - n) (YearFromTime l - 0) ltac:(lia)).
  pose proof (monthStart_close (YearFromTime l - 0) (YearFromTime l - n) (MonthFromTime l)).
  unfold msPerDay. intros E0. nia.
Qed.

(** Read at or after the epoch, the clock gives a start date that is not
    before year 100, whatever the token and the time zone. *)
Lemma start_date_from_year_100 (tz now : Z) (timeframe : string) :
  0 <= now -> getTime (mkDate 100 1 1) <= getTimeframeStartDate tz now timeframe.
Proof.
  intros H. change (getTime (mkDate 100 1 1)) with (-59011459200000).
  destruct (String.eqb_spec timeframe "all") as [-> | Ha].
  - change (getTimeframeStartDate tz now "all") with 0. lia.
  - rewrite (getTimeframeStartDate_resolve _ _ _ Ha). unfold resolveStart.
    pose proof (minusYears_near tz now (yearsOf timeframe)) as L.
    destruct (yearsOf_odd timeframe) as [E | [E | E]]; rewrite E in *;
      specialize (L ltac:(lia)); unfold msPerDay in *; lia.
Qed.

(** A well-formed date at or after the first day of year 100 has a year of
    three digits at least. *)
Lemma year_from_100 (d : ISODate) :
  well_formed d = true -> getTime (mkDate 100 1 1) <= getTime d -> 100 <= year d.
Proof.
  intros W H. pose proof (getTime_year_bounds d W) as [_ U].
  destruct (Z.le_gt_cases 100 (year d)) as [L | G]; [exact L | exfalso].
  pose proof (DayFromYear_le (year d + 1) 100 ltac:(lia)) as M.
  change (getTime (mkDate 100 1 1)) with (DayFromYear 100 * msPerDay) in H.
  unfold msPerDay in *. lia.
Qed.

(** The times ascend as the dates do when every point of the window is of
    year 100 or later. *)
Lemma times_ascending_in_window (first : StockData) (rest : list StockData)
    (startDate : Z) (r : Processed) :
  Forall (fun p => well_formed (date p) = true) (prices first) ->
  NoDup (map date (prices first)) ->
  (forall p, In p (prices first) -> startDate <= getTime (date p) -> 100 <= year (date p)) ->
  processData (first :: rest) startDate = Some r ->
  strictlyAscending (map time (series r)).
Proof.
  intros W N Y H.
  destruct (processData_cases first rest startDate) as [[E _] | (i & base & F & E)];
    [congruence |].
  rewrite E in H. destruct (leb (price base) zero); [discriminate |].
  injection H as <-. cbn [series].
  set (sorted := JS.sort byDate (prices first)) in *.
  pose proof (Permutation_sort byDate (prices first)) as P. fold sorted in P.
  assert (Ws : Forall (fun p => well_formed (date p) = true) sorted).
  { eapply Permutation_Forall; [symmetry; exact P | exact W]. }
  assert (Ns : NoDup (map date sorted)).
  { eapply Permutation_NoDup; [| exact N]. apply Permutation_map. symmetry. exact P. }
  pose proof (ascending_strict sorted Ws Ns (sort_ascending _)) as Hasc.
  apply (StronglySorted_skipn _ i) in Hasc.
  destruct F as (Hn & Hs & _).
  rewrite (skipn_nth_error_cons _ _ _ Hn) in *.
  assert (Hwin : forall p, In p (base :: skipn (S i) sorted) ->
                   well_formed (date p) = true /\ 100 <= year (date p)).
  { intros p Hp.
    assert (Hps : In p sorted).
    { rewrite <- (skipn_nth_error_cons _ _ _ Hn) in Hp.
      rewrite <- (firstn_skipn i sorted). apply in_or_app. right. exact Hp. }
    split; [rewrite Forall_forall in Ws; apply Ws, Hps |].
    apply Y; [eapply Permutation_in; [exact P | exact Hps] |].
    destruct Hp as [<- | Hp]; [exact Hs |].
    inversion Hasc as [| ? ? _ Fb]; subst. rewrite Forall_forall in Fb.
    specialize (Fb p Hp). unfold before in Fb. lia. }
  rewrite map_map. unfold strictlyAscending.
  apply (StronglySorted_map before); [| exact Hasc].
  intros a b Ha Hb Hab. cbn [rebased time].
  destruct (Hwin a Ha) as [_ Ya]. destruct (Hwin b Hb) as [_ Yb].
  pose proof (dateToUTCTimestamp_getTime (date a) Ya).
  pose proof (dateToUTCTimestamp_getTime (date b) Yb).
  unfold before in Hab. lia.
Qed.

(** C10. For every price series whose dates are well-formed and pairwise
    distinct, the times of the series [processData] returns ascend
    strictly: the series is sorted by date before the start index is
    located and the points are emitted in that order.  This holds for every
    start date from 0100-01-01 on, and so for every start date the page
    passes, which is the one [getTimeframeStartDate] computes from a clock
    read at or after the epoch, whatever the token and the time zone. *)
Theorem series_times_ascending (first : StockData) (rest : list StockData) :
  Forall (fun p => well_formed (date p) = true) (prices first) ->
  NoDup (map date (prices first)) ->
  (forall startDate r,
     getTime (mkDate 100 1 1) <= startDate ->
     processData (first :: rest) startDate = Some r ->
     strictlyAscending (map time (series r))) /\
  (forall tz now timeframe r,
     0 <= now ->
     processData (first :: rest) (getTimeframeStartDate tz now timeframe) = Some r ->
     strictlyAscending (map time (series r))).
Proof.
  intros W N.
  assert (G : forall startDate r,
            getTime (mkDate 100 1 1) <= startDate ->
            processData (first :: rest) startDate = Some r ->
            strictlyAscending (map time (series r))).
  { intros startDate r Hs H.
    apply (times_ascending_in_window first rest startDate r W N); [| exact H].
    intros p Hp Hw. apply year_from_100; [| lia].
    rewrite Forall_forall in W. apply W, Hp. }
  split; [exact G |].
  intros tz now timeframe r Hnow H.
  apply (G _ r (start_date_from_year_100 tz now timeframe Hnow) H).
Qed.

Lemma series_times_ascending_witness :
  exists r,
    processData
      [mkStock "AAPL"
         [mkPrice (mkDate 2024 1 3) (ofZ 150); mkPrice (mkDate 2024 1 2) (ofZ 100);
          mkPrice (mkDate 2023 12 29) (ofZ 90)] None]
      (getTimeframeStartDate 0 (getTime (mkDate 2024 6 15)) "1y") = Some r /\
    strictlyAscending (map time (series r)).
Proof.
  destruct (processData
              [mkStock "AAPL"
                 [mkPrice (mkDate 2024 1 3) (ofZ 150); mkPrice (mkDate 2024 1 2) (ofZ 100);
                  mkPrice (mkDate 2023 12 29) (ofZ 90)] None]
              (getTimeframeStartDate 0 (getTime (mkDate 2024 6 15)) "1y")) as [r |] eqn:E;
    [| vm_compute in E; discriminate].
  exists r. split; [reflexivity |].
  destruct (series_times_ascending
              (mkStock "AAPL"
                 [mkPrice (mkDate 2024 1 3) (ofZ 150); mkPrice (mkDate 2024 1 2) (ofZ 100);
                  mkPrice (mkDate 2023 12 29) (ofZ 90)] None) []) as (_ & H).
  - repeat constructor.
  - repeat constructor; cbn; intuition discriminate.
  - apply (H 0 (getTime (mkDate 2024 6 15)) "1y"%string r); [vm_compute; discriminate | exact E].
Defined.

(** Before year 100 the order of the times can differ from the order of the
    dates: [Date.UTC] reads the years 0 to 99 as 1900 to 1999, while the
    sort reads them as they are written.  With a start date in year 1,
    which the page never passes, the dates 0099-12-31 and 1950-01-01 are
    emitted with descending times. *)
Remark two_digit_years_reorder :
  let input := [mkPrice (mkDate 99 12 31) (ofZ 1); mkPrice (mkDate 1950 1 1) (ofZ 1)] in
  exists r,
    processData [mkStock "X" input None] (getTime (mkDate 1 1 1)) = Some r /\
    map time (series r) = [946598400; -631152000].
Proof. cbv zeta. eexists. split; reflexivity. Qed.

(** ** The orchestrator *)

Lemma string_app_assoc (a b c : string) : ((a ++ b) ++ c = a ++ (b ++ c))%string.
Proof. induction a as [| x a IH]; cbn; [reflexivity | rewrite IH; reflexivity]. Qed.

Lemma string_app_nil_r (a : string) : (a ++ "" = a)%string.
Proof. induction a as [| x a IH]; cbn; [reflexivity | rewrite IH; reflexivity]. Qed.

Lemma fetchError_text (ticker1 ticker2 : string) (ok1 ok2 : bool) :
  fetchError ticker1 ticker2 ok1 ok2 =
  ("Failed to fetch stock data."
   ++ (if ok1 then "" else " Check ticker " ++ ticker1 ++ ".")
   ++ (if ok2 then "" else " Check ticker " ++ ticker2 ++ "."))%string.
Proof.
  unfold fetchError. destruct ok1, ok2; cbn [negb];
    rewrite ?string_app_assoc, ?string_app_nil_r; reflexivity.
Qed.

Lemma processError_text (ticker1 ticker2 : string) (processed1 processed2 : option Processed) :
  processError ticker1 ticker2 processed1 processed2 =
  ("Could not process data for comparison."
   ++ match processed1 with
      | Some _ => ""
      | None => " Check data availability for " ++ ticker1 ++ "."
      end
   ++ match processed2 with
      | Some _ => ""
      | None => " Check data availability for " ++ ticker2 ++ "."
      end)%string.
Proof.
  unfold processError. destruct processed1, processed2;
    rewrite ?string_app_assoc, ?string_app_nil_r; reflexivity.
Qed.

Lemma fetchComparisonData_settled (tz now : Z) (ticker1 ticker2 timeframe : string)
    (f1 f2 : Fetched) (secondFirst : bool) (meanwhile : View -> View) (v : View) :
  JS.truthy ticker1 = true -> JS.truthy ticker2 = true ->
  fetchComparisonData tz now ticker1 ticker2 timeframe f1 f2 secondFirst meanwhile v =
  match compare ticker1 ticker2 (getTimeframeStartDate tz now timeframe) f1 f2 secondFirst with
  | inr result =>
    {| comparisonData := Some result; loading := false;
       error := error (meanwhile (fetchComparisonData_begin v)) |}
  | inl message =>
    {| comparisonData := None; loading := false;
       error := JS.orElse message "An unknown error occurred." |}
  end.
Proof.
  intros T1 T2. unfold fetchComparisonData, fetchComparisonData_settle.
  rewrite T1, T2. cbn [negb orb].
  destruct (compare _ _ _ _ _ _); reflexivity.
Qed.

Lemma orElse_truthy (a b : string) : JS.truthy b = true -> JS.truthy (JS.orElse a b) = true.
Proof. unfold JS.orElse. destruct (JS.truthy a) eqn:E; auto. Qed.

Lemma truthy_not_empty (s : string) : JS.truthy s = true -> s <> ""%string.
Proof. destruct s; [discriminate | discriminate]. Qed.

(** C7 as stated fails: a fetch that is rejected, as on a network error,
    makes the operation fail with the message of the rejection, which names
    no ticker. *)
Lemma rejected_fetch_names_no_ticker :
  let v := {| comparisonData := Some (mkComparison "AAPL" "MSFT" [] [] hundred hundred);
              loading := false; error := "" |} in
  let v' := fetchComparisonData 0 (getTime (mkDate 2024 6 15)) "AAPL" "MSFT" "1y"
              (Rejected "Failed to fetch") (Resolved true (inr (mkStock "MSFT" [] None)))
              false (fun x => x) v in
  comparisonData v' = None /\
  error v' = "Failed to fetch"%string /\
  JS.includes "AAPL" (error v') = false /\
  error v' <> "Failed to fetch stock data. Check ticker AAPL."%string.
Proof. cbv zeta. repeat split. discriminate. Qed.

(** C7, amended. With both tickers filled in, when [fetchComparisonData]
    settles, whatever was written to the state in the meantime: a
    comparison is displayed only if both fetches resolved to successful
    responses and both series were normalized; if both fetches resolve and
    a response is not ok the error is "Failed to fetch stock data."
    followed by " Check ticker T." for each ticker T whose response is not
    ok; if a fetch is rejected the error is the message of the rejection
    that came first, or "An unknown error occurred." when it is empty, and
    names no ticker; if both responses are ok and a normalization is absent
    the error is "Could not process data for comparison." followed by
    " Check data availability for T." for each ticker T without data; and
    in every failure, whatever was displayed before, [comparisonData]
    becomes null and the error is not empty. *)
Theorem fetchComparisonData_failures (tz now : Z) (ticker1 ticker2 timeframe : string)
    (f1 f2 : Fetched) (secondFirst : bool) (meanwhile : View -> View) (v : View) :
  JS.truthy ticker1 = true -> JS.truthy ticker2 = true ->
  let startDate := getTimeframeStartDate tz now timeframe in
  let v' := fetchComparisonData tz now ticker1 ticker2 timeframe f1 f2 secondFirst meanwhile v in
  (forall c, comparisonData v' = Some c ->
     exists d1 d2 p1 p2,
       f1 = Resolved true (inr d1) /\ f2 = Resolved true (inr d2) /\
       processData [d1] startDate = Some p1 /\ processData [d2] startDate = Some p2 /\
       c = {| ticker1 := JS.toUpperCase ticker1; ticker2 := JS.toUpperCase ticker2;
              series1 := series p1; series2 := series p2;
              finalValue1 := finalValue p1; finalValue2 := finalValue p2 |}) /\
  (forall ok1 j1 ok2 j2,
     f1 = Resolved ok1 j1 -> f2 = Resolved ok2 j2 -> ok1 && ok2 = false ->
     comparisonData v' = None /\
     error v' =
       ("Failed to fetch stock data."
        ++ (if ok1 then "" else " Check ticker " ++ ticker1 ++ ".")
        ++ (if ok2 then "" else " Check ticker " ++ ticker2 ++ "."))%string) /\
  (forall message,
     (exists ok j, f1 = Rejected message /\ f2 = Resolved ok j) \/
     (exists ok j, f1 = Resolved ok j /\ f2 = Rejected message) \/
     (exists other, f1 = Rejected message /\ f2 = Rejected other /\ secondFirst = false) \/
     (exists other, f1 = Rejected other /\ f2 = Rejected message /\ secondFirst = true) ->
     comparisonData v' = None /\
     error v' = (if JS.truthy message then message else "An unknown error occurred."%string)) /\
  (forall d1 d2,
     f1 = Resolved true (inr d1) -> f2 = Resolved true (inr d2) ->
     processData [d1] startDate = None \/ processData [d2] startDate = None ->
     comparisonData v' = None /\
     error v' =
       ("Could not process data for comparison."
        ++ match processData [d1] startDate with
           | Some _ => ""
           | None => " Check data availability for " ++ ticker1 ++ "."
           end
        ++ match processData [d2] startDate with
           | Some _ => ""
           | None => " Check data availability for " ++ ticker2 ++ "."
           end)%string) /\
  (forall message,
     compare ticker1 ticker2 startDate f1 f2 secondFirst = inl message ->
     comparisonData v' = None /\ error v' <> ""%string) /\
  loading v' = false.
Proof.
  intros T1 T2 startDate v'.
  assert (Ev : v' = match compare ticker1 ticker2 startDate f1 f2 secondFirst with
                    | inr result =>
                      {| comparisonData := Some result; loading := false;
                         error := error (meanwhile (fetchComparisonData_begin v)) |}
                    | inl message =>
                      {| comparisonData := None; loading := false;
                         error := JS.orElse message "An unknown error occurred." |}
                    end)
    by (apply fetchComparisonData_settled; assumption).
  clearbody v'. subst v'.
  split; [| split; [| split; [| split; [| split]]]].
  - intros c Hc. unfold compare, throw in Hc.
    destruct f1 as [m1 | [|] [e1 | d1]], f2 as [m2 | [|] [e2 | d2]];
      cbn [Promise_all bind negb orb comparisonData throw] in Hc; try discriminate.
    destruct (processData [d1] startDate) as [p1 |] eqn:E1;
      destruct (processData [d2] startDate) as [p2 |] eqn:E2;
      cbn [comparisonData] in Hc; try discriminate.
    injection Hc as <-. exists d1, d2, p1, p2. repeat split; assumption.
  - intros ok1 j1 ok2 j2 -> -> Hok. unfold compare. cbn [Promise_all bind].
    assert (Hor : negb ok1 || negb ok2 = true) by (destruct ok1, ok2; auto; discriminate).
    rewrite Hor. unfold throw. cbn [comparisonData error].
    split; [reflexivity |].
    rewrite fetchError_text. unfold JS.orElse. reflexivity.
  - intros message H.
    assert (E : compare ticker1 ticker2 startDate f1 f2 secondFirst = inl message).
    { unfold compare.
      destruct H as [(ok & j & -> & ->) | [(ok & j & -> & ->) | [(o & -> & -> & ->) |
                    (o & -> & -> & ->)]]]; reflexivity. }
    rewrite E. split; reflexivity.
  - intros d1 d2 -> -> Habs. unfold compare. cbn [Promise_all bind negb orb].
    rewrite <- processError_text.
    destruct (processData [d1] startDate) as [p1 |] eqn:E1;
      destruct (processData [d2] startDate) as [p2 |] eqn:E2;
      try (destruct Habs; discriminate);
      unfold throw; cbn [comparisonData error]; (split; [reflexivity |]);
      unfold processError, JS.orElse; reflexivity.
  - intros message ->. cbn [comparisonData error]. split; [reflexivity |].
    apply truthy_not_empty, orElse_truthy. reflexivity.
  - destruct (compare _ _ _ _ _ _); reflexivity.
Qed.

Lemma fetchComparisonData_failures_witness :
  let v := {| comparisonData := Some (mkComparison "AAPL" "MSFT" [] [] hundred hundred);
              loading := true; error := "" |} in
  let v' := fetchComparisonData 0 (getTime (mkDate 2024 6 15)) "aapl" "zzzz" "1y"
              (Resolved true (inr (mkStock "AAPL" [] None))) (Resolved false (inl ""%string))
              false (setError "stale") v in
  comparisonData v' = None /\
  error v' = "Failed to fetch stock data. Check ticker zzzz."%string.
Proof.
  cbv zeta.
  destruct (fetchComparisonData_failures 0 (getTime (mkDate 2024 6 15)) "aapl" "zzzz" "1y"
              (Resolved true (inr (mkStock "AAPL" [] None))) (Resolved false (inl ""%string))
              false (setError "stale")
              {| comparisonData := Some (mkComparison "AAPL" "MSFT" [] [] hundred hundred);
                 loading := true; error := "" |}
              eq_refl eq_refl) as (_ & H & _).
  apply (H true (inr (mkStock "AAPL" [] None)) false (inl ""%string) eq_refl eq_refl eq_refl).
Defined.

(** ** The route *)

(** C8 as stated fails: for a symbol the provider knows but has no bars
    for, the route answers 200 with an empty [prices], not 404. *)
Lemma no_data_answers_200 :
  let w := {| StockRoute.now := getTime (mkDate 2024 6 15);
              StockRoute.tz := 0;
              StockRoute.chart := fun _ _ _ => inr (Some []);
              StockRoute.quote := fun _ =>
                inr (Some {| StockRoute.longName := Some "New Co"%string;
                             StockRoute.shortName := None |});
              StockRoute.toFixed2 := fun x => x |} in
  StockRoute.GET w (Some "newco"%string) (Some "1y"%string) =
  {| StockRoute.status := 200;
     StockRoute.body := StockRoute.StockJson "NEWCO" "New Co" [] |}.
Proof. reflexivity. Qed.

(** C8, amended. For a request with a non-empty symbol, uppercased to
    [symbol]: if both provider calls return, the route answers 200 with
    [{symbol, name, prices}], where [prices] holds the complete bars and is
    empty when there are none; if a provider call throws an error whose
    message contains "No data found" or whose code is "Not Found", it
    answers 404 with [{error}] naming the symbol; if it throws any other
    error, it answers 500 with [{error: "Failed to fetch stock data"}].
    Without a symbol it answers 400. *)
Theorem GET_responses (w : StockRoute.World) (symbolParam timeframeParam : option string) :
  let symbol := match symbolParam with Some s => JS.toUpperCase s | None => ""%string end in
  let timeframe := StockRoute.stringOr timeframeParam "2y" in
  let period1 := toISODate (StockRoute.rangeStart w timeframe) in
  let period2 := toISODate (StockRoute.now w) in
  let response := StockRoute.GET w symbolParam timeframeParam in
  (symbol = ""%string ->
   response = {| StockRoute.status := 400;
                 StockRoute.body := StockRoute.ErrorJson "Stock symbol is required" |}) /\
  (symbol <> ""%string ->
   (forall chartResult summary,
      StockRoute.chart w symbol period1 period2 = inr chartResult ->
      StockRoute.quote w symbol = inr summary ->
      response =
      {| StockRoute.status := 200;
         StockRoute.body :=
           StockRoute.StockJson symbol
             (StockRoute.stringOr
                match summary with Some s => StockRoute.longName s | None => None end
                (StockRoute.stringOr
                   match summary with Some s => StockRoute.shortName s | None => None end
                   (symbol ++ " Inc.")))
             (StockRoute.formatPrices w
                match chartResult with Some quotes => quotes | None => [] end) |}) /\
   (forall e,
      StockRoute.chart w symbol period1 period2 = inl e \/
      (exists chartResult, StockRoute.chart w symbol period1 period2 = inr chartResult /\
                           StockRoute.quote w symbol = inl e) ->
      response =
      if StockRoute.notFound e then
        {| StockRoute.status := 404;
           StockRoute.body :=
             StockRoute.ErrorJson ("Stock symbol " ++ symbol ++ " not found or no data available") |}
      else
        {| StockRoute.status := 500;
           StockRoute.body := StockRoute.ErrorJson "Failed to fetch stock data" |})).
Proof.
  intros symbol timeframe period1 period2 response.
  unfold response, StockRoute.GET. fold symbol. fold timeframe.
  split.
  - intros ->. reflexivity.
  - intros Hs.
    assert (T : JS.truthy symbol = true) by (destruct symbol; [contradiction | reflexivity]).
    rewrite T. cbn [negb]. unfold StockRoute.fetchStock. fold period1. fold period2.
    split.
    + intros chartResult summary -> ->. reflexivity.
    + intros e [-> | (chartResult & -> & ->)];
        destruct (StockRoute.notFound e); reflexivity.
Qed.

Lemma GET_responses_witness :
  let w := {| StockRoute.now := getTime (mkDate 2024 6 15);
              StockRoute.tz := 0;
              StockRoute.chart := fun _ _ _ =>
                inl {| StockRoute.message := Some "No data found, symbol may be delisted"%string;
                       StockRoute.code := None |};
              StockRoute.quote := fun _ => inr None;
              StockRoute.toFixed2 := fun x => x |} in
  StockRoute.GET w (Some "zzzz"%string) None =
  {| StockRoute.status := 404;
     StockRoute.body := StockRoute.ErrorJson "Stock symbol ZZZZ not found or no data available" |}.
Proof.
  cbv zeta.
  destruct (GET_responses
              {| StockRoute.now := getTime (mkDate 2024 6 15);
                 StockRoute.tz := 0;
                 StockRoute.chart := fun _ _ _ =>
                   inl {| StockRoute.message := Some "No data found, symbol may be delisted"%string;
                          StockRoute.code := None |};
                 StockRoute.quote := fun _ => inr None;
                 StockRoute.toFixed2 := fun x => x |}
              (Some "zzzz"%string) None) as (_ & H).
  destruct (H ltac:(discriminate)) as (_ & H404).
  rewrite (H404 {| StockRoute.message := Some "No data found, symbol may be delisted"%string;
                   StockRoute.code := None |} (or_introl eq_refl)).
  reflexivity.
Defined.

(** ** The debounce effect *)

Lemma filter_all_ref (id : positive) (l : list Timer) :
  (forall x, In x l -> timerId x = id) ->
  filter (fun t => negb (Pos.eqb (timerId t) id)) l = [].
Proof.
  induction l as [| x l IH]; intros H; [reflexivity |].
  cbn [filter]. rewrite (H x (or_introl eq_refl)), Pos.eqb_refl. cbn [negb].
  apply IH. intros y Hy. apply H. right. exact Hy.
Qed.

Lemma clearPending_timers (c : Component) :
  onlyRefPending c -> timers (clearPending c) = [].
Proof.
  intros H. unfold clearPending.
  destruct (debounceTimerRef c) as [id |] eqn:R.
  - cbn [clearTimeout timers]. apply filter_all_ref.
    intros x Hx. specialize (H x Hx). congruence.
  - destruct (timers c) as [| x l] eqn:E; [reflexivity |].
    specialize (H x). rewrite E in H. specialize (H (or_introl eq_refl)). congruence.
Qed.

Lemma clearPending_fields (c : Component) :
  clock (clearPending c) = clock c /\
  nextTimerId (clearPending c) = nextTimerId c /\
  debounceTimerRef (clearPending c) = debounceTimerRef c /\
  calls (clearPending c) = calls c.
Proof. unfold clearPending. destruct (debounceTimerRef c) eqn:R; repeat split; auto. Qed.

Lemma runTimers_onlyRefPending (t : Z) (c : Component) :
  onlyRefPending c -> onlyRefPending (runTimers t c).
Proof.
  unfold onlyRefPending, runTimers. cbn [timers debounceTimerRef].
  intros H x Hx. apply filter_In in Hx. apply H, Hx.
Qed.

(** What a render with changed inputs leaves behind. *)
Lemma step_InputChange (c : Component) (t : Z) (i : Inputs) :
  onlyRefPending c ->
  let c' := step c (InputChange t i) in
  timers c' =
    (if qualifying i
     then [ {| timerId := nextTimerId c; due := t + debounceDelay; closure := i |} ]
     else []) /\
  calls c' = calls c ++ map (fun x => (due x, closure x)) (filter (fun x => due x <=? t) (timers c)) /\
  onlyRefPending c'.
Proof.
  intros H. cbn [step]. unfold cleanup.
  pose proof (runTimers_onlyRefPending t c H) as H1.
  pose proof (clearPending_timers _ H1) as T1.
  destruct (clearPending_fields (runTimers t c)) as (K1 & N1 & R1 & C1).
  set (c1 := clearPending (runTimers t c)) in *.
  unfold effect.
  set (c2 := withView _ c1).
  assert (H2 : onlyRefPending c2).
  { unfold onlyRefPending, c2. cbn [withView timers]. rewrite T1. intros x []. }
  pose proof (clearPending_timers _ H2) as T3.
  destruct (clearPending_fields c2) as (K3 & N3 & R3 & C3).
  set (c3 := clearPending c2) in *.
  assert (K2 : clock c2 = t /\ nextTimerId c2 = nextTimerId c /\
               calls c2 = calls c ++ map (fun x => (due x, closure x))
                                        (filter (fun x => due x <=? t) (timers c))).
  { unfold c2. cbn [withView clock nextTimerId calls]. rewrite K1, N1, C1.
    repeat split. }
  destruct K2 as (K2 & N2 & C2).
  fold (qualifying i). destruct (qualifying i).
  - unfold onlyRefPending.
    cbn [setTimeoutRef withView timers calls clock nextTimerId debounceTimerRef].
    rewrite T3, K3, N3, C3, K2, N2, C2. cbn [app].
    split; [reflexivity |]. split; [reflexivity |].
    intros x [<- | []]. reflexivity.
  - unfold onlyRefPending. cbn [withView timers calls]. rewrite T3, C3, C2.
    split; [reflexivity |]. split; [reflexivity |]. intros x [].
Qed.

Lemma step_onlyRefPending (c : Component) (e : Event) :
  onlyRefPending c -> onlyRefPending (step c e).
Proof.
  intros H. destruct e as [t i | t].
  - apply (step_InputChange c t i H).
  - apply runTimers_onlyRefPending, H.
Qed.

Lemma run_onlyRefPending (events : list Event) (c : Component) :
  onlyRefPending c -> onlyRefPending (run events c).
Proof.
  revert c. induction events as [| e events IH]; intros c H; [exact H |].
  cbn [run fold_left]. apply IH, step_onlyRefPending, H.
Qed.

Lemma mounted_onlyRefPending (t0 : Z) : onlyRefPending (mounted t0).
Proof. intros x []. Qed.

(** C9. From a component with no pending timer, three input changes at
    times [t1 <= t2 <= t3] less than 500 ms apart, the last of which has both
    tickers filled in, lead to exactly one call of [fetchComparisonData] once
    500 ms have passed after the last change: the call made by the timer of
    the last change, with the inputs of the last change.  Each change with
    both tickers filled in leaves exactly one pending timer, its own, due
    500 ms later: any timer pending before is cancelled.  (In every state
    the component reaches, the only timer that can be pending is the one
    [debounceTimerRef] holds.) *)
Theorem debounce_three_changes (c0 : Component) (t1 t2 t3 T : Z) (i1 i2 i3 : Inputs) :
  timers c0 = [] ->
  qualifying i3 = true ->
  t1 <= t2 <= t3 -> t3 < t1 + debounceDelay -> t3 + debounceDelay <= T ->
  let c := run [InputChange t1 i1; InputChange t2 i2; InputChange t3 i3; Elapse T] c0 in
  calls c = calls c0 ++ [(t3 + debounceDelay, i3)] /\
  timers c = [] /\
  (forall c' t i,
     onlyRefPending c' -> qualifying i = true ->
     timers (step c' (InputChange t i)) =
       [ {| timerId := nextTimerId c'; due := t + debounceDelay; closure := i |} ]) /\
  (forall events t0, onlyRefPending (run events (mounted t0))).
Proof.
  intros E0 Q3 H12 H31 HT c.
  assert (P0 : onlyRefPending c0).
  { unfold onlyRefPending. rewrite E0. intros x []. }
  unfold c, run. cbn [fold_left].
  destruct (step_InputChange c0 t1 i1 P0) as (Tm1 & Cl1 & P1).
  set (c1 := step c0 (InputChange t1 i1)) in *.
  destruct (step_InputChange c1 t2 i2 P1) as (Tm2 & Cl2 & P2).
  set (c2 := step c1 (InputChange t2 i2)) in *.
  destruct (step_InputChange c2 t3 i3 P2) as (Tm3 & Cl3 & P3).
  set (c3 := step c2 (InputChange t3 i3)) in *.
  rewrite Q3 in Tm3.
  assert (F1 : filter (fun x => due x <=? t1) (timers c0) = []) by (rewrite E0; reflexivity).
  assert (F2 : filter (fun x => due x <=? t2) (timers c1) = []).
  { rewrite Tm1. destruct (qualifying i1); [| reflexivity].
    cbn [filter due]. destruct (Z.leb_spec (t1 + debounceDelay) t2); [lia | reflexivity]. }
  assert (F3 : filter (fun x => due x <=? t3) (timers c2) = []).
  { rewrite Tm2. destruct (qualifying i2); [| reflexivity].
    cbn [filter due]. unfold debounceDelay in *.
    destruct (Z.leb_spec (t2 + 500) t3); [lia | reflexivity]. }
  rewrite F1 in Cl1. rewrite F2 in Cl2. rewrite F3 in Cl3. cbn [map] in Cl1, Cl2, Cl3.
  rewrite app_nil_r in Cl1, Cl2, Cl3.
  split; [| split; [| split]].
  - cbn [step runTimers calls]. rewrite Tm3, Cl3, Cl2, Cl1.
    cbn [filter due closure map].
    destruct (Z.leb_spec (t3 + debounceDelay) T) as [_ | L]; [| lia].
    reflexivity.
  - cbn [step runTimers timers]. rewrite Tm3. cbn [filter due].
    destruct (Z.leb_spec (t3 + debounceDelay) T) as [_ | L]; [| lia].
    reflexivity.
  - intros c' t i P Q. destruct (step_InputChange c' t i P) as (Tm & _).
    rewrite Tm, Q. reflexivity.
  - intros events t0. apply run_onlyRefPending, mounted_onlyRefPending.
Qed.

Lemma debounce_three_changes_witness :
  let a := {| input1 := "A"; input2 := "MSFT"; inputTimeframe := "1y" |} in
  let b := {| input1 := "AA"; input2 := "MSFT"; inputTimeframe := "1y" |} in
  let d := {| input1 := "AAPL"; input2 := "MSFT"; inputTimeframe := "1y" |} in
  calls (run [InputChange 1000 a; InputChange 1200 b; InputChange 1450 d; Elapse 2000]
           (mounted 0))
  = [(1950, d)].
Proof.
  cbv zeta.
  destruct (debounce_three_changes (mounted 0) 1000 1200 1450 2000
              {| input1 := "A"; input2 := "MSFT"; inputTimeframe := "1y" |}
              {| input1 := "AA"; input2 := "MSFT"; inputTimeframe := "1y" |}
              {| input1 := "AAPL"; input2 := "MSFT"; inputTimeframe := "1y" |}
              eq_refl eq_refl ltac:(lia) ltac:(unfold debounceDelay; lia)
              ltac:(unfold debounceDelay; lia)) as (H & _).
  exact H.
Defined.

(** * More of the code *)

(** ** The start date, continued *)

(** X1. Whatever the end date and the time zone, a longer timeframe starts
    earlier: the start for "5y" is before the start for "3y", which is
    before the start for "1y", and every start other than the one of "all"
    is more than a year (365 days) before the end date. *)
Theorem start_dates_ordered (tz endDate : Z) :
  getTimeframeStartDate tz endDate "5y" < getTimeframeStartDate tz endDate "3y" /\
  getTimeframeStartDate tz endDate "3y" < getTimeframeStartDate tz endDate "1y" /\
  (forall option, option <> "all"%string ->
     getTimeframeStartDate tz endDate option + 365 * msPerDay <= endDate).
Proof.
  pose proof (getTimeframeStartDate_resolve tz endDate) as Heq.
  rewrite !Heq by discriminate. unfold resolveStart.
  change (yearsOf "5y") with 5. change (yearsOf "3y") with 3. change (yearsOf "1y") with 1.
  pose proof (minusYears_lt tz endDate 3 5 ltac:(lia)).
  pose proof (minusYears_lt tz endDate 1 3 ltac:(lia)).
  unfold msPerDay in *.
  split; [lia |]. split; [lia |].
  intros option Ho. rewrite (Heq option Ho). unfold resolveStart.
  assert (Hn : 1 <= yearsOf option) by (destruct (yearsOf_odd option) as [-> | [-> | ->]]; lia).
  pose proof (minusYears_lt tz endDate 0 (yearsOf option) ltac:(lia)) as L.
  rewrite minusYears_zero in L. unfold msPerDay in *. lia.
Qed.

Lemma start_dates_ordered_witness :
  getTimeframeStartDate 0 (getTime (mkDate 2024 6 15)) "ytd" + 365 * msPerDay
  <= getTime (mkDate 2024 6 15).
Proof.
  destruct (start_dates_ordered 0 (getTime (mkDate 2024 6 15))) as (_ & _ & H).
  apply H. discriminate.
Defined.

Lemma leap_of_feb29 (t : Z) :
  MonthFromTime t = 1 -> DateFromTime t = 29 -> leapDays (YearFromTime t) = 1.
Proof.
  unfold DateFromTime, MonthFromTime, MonthFromDayInYear.
  pose proof (leapDays_range (YearFromTime t)).
  split_ltb; intros Hm; try lia. cbv beta iota delta [monthStart]. lia.
Qed.

Lemma leapDays_odd_back (y n : Z) :
  leapDays y = 1 -> n = 1 \/ n = 3 \/ n = 5 -> leapDays (y - n) = 0.
Proof.
  unfold leapDays, InLeapYear. intros Hy Hn.
  destruct (Z.eqb_spec (y mod 4) 0) as [E | N]; cbn [negb] in Hy; [| discriminate].
  destruct (Z.eqb_spec ((y - n) mod 4) 0) as [E' | N']; cbn [negb]; [| reflexivity].
  exfalso. clear Hy. Z.div_mod_to_equations. lia.
Qed.

(** X2. An end date on 29 February gives, for "1y", "3y", "5y" and for any
    unrecognized token, a start date on 28 February of the year that many
    years earlier, at the same time of day: one, three or five years before
    a leap year there is no 29 February, the date runs over to 1 March, and
    the step back by a day returns to February. *)
Theorem leap_day_start (tz endDate : Z) (option : string) (y s : Z) :
  option <> "all"%string ->
  localFields tz endDate = (y, 2, 29, s) ->
  localFields tz (getTimeframeStartDate tz endDate option) = (y - yearsOf option, 2, 28, s).
Proof.
  intros Ho E. rewrite (getTimeframeStartDate_resolve _ _ _ Ho).
  unfold resolveStart, minusYears, UTC, localFields in *.
  set (l := LocalTime tz endDate) in *.
  injection E as Ey Em Ed Es.
  assert (Hm : MonthFromTime l = 1) by lia.
  pose proof (leap_of_feb29 l Hm Ed) as Leap. rewrite Ey in Leap.
  pose proof (leapDays_odd_back y (yearsOf option) Leap (yearsOf_odd option)) as NoLeap.
  pose proof (TimeWithinDay_range l) as Hs.
  rewrite Hm, Ed, Ey.
  set (k := MakeDay (y - yearsOf option) 1 29).
  replace (LocalTime tz (MakeDate k (TimeWithinDay l) - tz - msPerDay))
    with (MakeDate (k - 1) (TimeWithinDay l)) by (unfold LocalTime, MakeDate; lia).
  destruct (fields_of_time (MakeDate (k - 1) (TimeWithinDay l)) (y - yearsOf option) 1 28)
    as (Gy & Gm & Gd).
  - lia.
  - change (1 + 1) with 2. cbv beta iota delta [DaysInMonth]. lia.
  - rewrite Day_MakeDate by exact Hs. unfold k.
    rewrite !MakeDay_small_month by lia. lia.
  - rewrite Gy, Gm, Gd, TimeWithinDay_MakeDate, Es by exact Hs. reflexivity.
Qed.

Lemma leap_day_start_witness :
  localFields 0 (getTimeframeStartDate 0 (getTime (mkDate 2024 2 29)) "3y") = (2021, 2, 28, 0).
Proof.
  apply (leap_day_start 0 (getTime (mkDate 2024 2 29)) "3y" 2024 0).
  - discriminate.
  - vm_compute. reflexivity.
Defined.

(** ** Date strings, timestamps and time values *)

Lemma DateFromTime_le (t : Z) :
  DateFromTime t <= DaysInMonth (YearFromTime t) (MonthFromTime t + 1).
Proof.
  unfold DateFromTime, MonthFromTime, MonthFromDayInYear.
  pose proof (YearFromDay_spec (Day t)) as S. fold (YearFromTime t) in S.
  rewrite DayFromYear_succ, DaysInYear_leap in S.
  unfold DayWithinYear. pose proof (leapDays_range (YearFromTime t)).
  split_ltb;
    match goal with |- context [DaysInMonth _ (?a + 1)] =>
      let v := eval compute in (a + 1) in change (a + 1) with v
    end;
    cbv beta iota delta [monthStart DaysInMonth]; lia.
Qed.

(** X3. The timestamp of a well-formed date of year 100 or later reads back
    as that date; for a year from 0 to 99 it reads back as the same month
    and day 1900 years later, when that day exists. *)
Theorem dateToUTCTimestamp_round_trip (d : ISODate) :
  well_formed d = true ->
  (100 <= year d -> toISODate (1000 * dateToUTCTimestamp d) = d) /\
  (year d <= 99 ->
   well_formed (mkDate (1900 + year d) (month d) (day d)) = true ->
   toISODate (1000 * dateToUTCTimestamp d) = mkDate (1900 + year d) (month d) (day d)).
Proof.
  intros W. split.
  - intros Hy. rewrite (dateToUTCTimestamp_getTime d Hy). apply toISODate_getTime, W.
  - intros Hy W'. apply well_formed_inv in W as (Hy0 & _).
    rewrite <- (toISODate_getTime _ W'). f_equal.
    unfold dateToUTCTimestamp, Date_UTC, getTime, MakeFullYear. cbn [year month day].
    destruct (Z.leb_spec 0 (year d)); [| lia].
    destruct (Z.leb_spec (year d) 99); [| lia].
    cbn [andb]. unfold MakeDate, msPerDay. Z.div_mod_to_equations. lia.
Qed.

Lemma dateToUTCTimestamp_round_trip_witness :
  toISODate (1000 * dateToUTCTimestamp (mkDate 2024 2 29)) = mkDate 2024 2 29 /\
  toISODate (1000 * dateToUTCTimestamp (mkDate 50 1 1)) = mkDate 1950 1 1.
Proof.
  split.
  - apply (dateToUTCTimestamp_round_trip (mkDate 2024 2 29) eq_refl).
    vm_compute. discriminate.
  - apply (dateToUTCTimestamp_round_trip (mkDate 50 1 1) eq_refl).
    + vm_compute. discriminate.
    + reflexivity.
Defined.

(** X4. The date strings the route writes and the page reads back: a time
    value of a year from 0 to 9999 is written as a well-formed date, which
    the page reads as the UTC midnight of that day; and a well-formed date
    read by the page is written back as itself. *)
Theorem date_string_round_trip :
  (forall t, 0 <= YearFromTime t <= 9999 ->
     well_formed (toISODate t) = true /\
     getTime (toISODate t) = Day t * msPerDay) /\
  (forall d, well_formed d = true -> toISODate (getTime d) = d).
Proof.
  split.
  - intros t Hy.
    pose proof (MonthFromTime_range t). pose proof (DateFromTime_pos t).
    pose proof (DateFromTime_le t).
    split.
    + unfold well_formed, toISODate. cbn [year month day].
      rewrite !andb_true_iff, !Z.leb_le. lia.
    + unfold getTime, toISODate. cbn [year month day].
      replace (MonthFromTime t + 1 - 1) with (MonthFromTime t) by lia.
      rewrite MakeDay_fields. unfold MakeDate. lia.
  - apply toISODate_getTime.
Qed.

Lemma date_string_round_trip_witness :
  getTime (toISODate 1718462096789) = Day 1718462096789 * msPerDay /\
  toISODate (getTime (mkDate 2024 6 15)) = mkDate 2024 6 15.
Proof.
  destruct date_string_round_trip as (H1 & H2). split.
  - apply H1. vm_compute. split; discriminate.
  - apply H2. reflexivity.
Defined.

(** ** The normalizer, continued *)

Lemma insert_first (x : StockPriceData) (l : list StockPriceData) :
  Forall (notAfter x) l -> JS.insert byDate x l = x :: l.
Proof.
  intros H. destruct l as [| y l]; [reflexivity |].
  cbn [JS.insert]. inversion H as [| ? ? Hy _]; subst.
  destruct (Z.leb_spec (byDate x y) 0); [reflexivity |].
  unfold notAfter, byDate in *. lia.
Qed.

Lemma filter_insert_out (p : StockPriceData -> bool) (x : StockPriceData)
    (l : list StockPriceData) :
  p x = false -> filter p (JS.insert byDate x l) = filter p l.
Proof.
  intros Px. induction l as [| y l IH]; cbn [JS.insert filter].
  - rewrite Px. reflexivity.
  - destruct (byDate x y <=? 0); cbn [filter]; rewrite ?Px, ?IH; reflexivity.
Qed.

Lemma filter_insert_in (p : StockPriceData -> bool) (x : StockPriceData)
    (l : list StockPriceData) :
  ascending l -> p x = true ->
  filter p (JS.insert byDate x l) = JS.insert byDate x (filter p l).
Proof.
  unfold ascending. intros H Px. induction H as [| y l Hl IH Hy]; cbn [JS.insert filter].
  - rewrite Px. reflexivity.
  - destruct (Z.leb_spec (byDate x y) 0) as [Hle | Hgt].
    + cbn [filter]. rewrite Px. destruct (p y) eqn:Py.
      * cbn [JS.insert]. destruct (Z.leb_spec (byDate x y) 0); [reflexivity | lia].
      * symmetry. apply insert_first.
        apply Forall_forall. intros z Hz. apply filter_In in Hz as [Hz _].
        rewrite Forall_forall in Hy. specialize (Hy z Hz).
        unfold notAfter, byDate in *. lia.
    + cbn [filter]. rewrite IH. destruct (p y) eqn:Py; [| reflexivity].
      cbn [JS.insert]. destruct (Z.leb_spec (byDate x y) 0); [lia | reflexivity].
Qed.

(** Sorting by date and keeping the points that satisfy a test commute. *)
Lemma sort_filter (p : StockPriceData -> bool) (l : list StockPriceData) :
  JS.sort byDate (filter p l) = filter p (JS.sort byDate l).
Proof.
  induction l as [| x l IH]; [reflexivity |].
  cbn [filter JS.sort]. destruct (p x) eqn:Px.
  - cbn [JS.sort]. rewrite IH. symmetry. apply filter_insert_in; [apply sort_ascending | exact Px].
  - rewrite IH. symmetry. apply filter_insert_out, Px.
Qed.

(** In an ascending series the points on or after the start date are the
    ones from the first of them on. *)
Lemma window_skipn (startDate : Z) (l : list StockPriceData) (i : nat) (base : StockPriceData) :
  ascending l -> firstOnOrAfter startDate l i base ->
  filter (onOrAfter startDate) l = skipn i l.
Proof.
  unfold ascending. intros H. revert i. induction H as [| y l Hl IH Hy]; intros i (Hn & Hs & Hlt).
  - destruct i; discriminate.
  - destruct i as [| i].
    + cbn in Hn. injection Hn as ->. cbn [skipn filter].
      assert (Hb : onOrAfter startDate base = true).
      { unfold onOrAfter. destruct (Z.geb_spec (getTime (date base)) startDate); [reflexivity | lia]. }
      rewrite Hb. f_equal.
      apply forallb_filter_id. apply forallb_forall. intros z Hz.
      rewrite Forall_forall in Hy. specialize (Hy z Hz). unfold notAfter, onOrAfter in *.
      destruct (Z.geb_spec (getTime (date z)) startDate); [reflexivity | lia].
    + cbn [skipn filter].
      assert (Hyo : onOrAfter startDate y = false).
      { specialize (Hlt 0%nat y ltac:(lia) eq_refl). unfold onOrAfter.
        destruct (Z.geb_spec (getTime (date y)) startDate); [lia | reflexivity]. }
      rewrite Hyo. apply IH. split; [exact Hn |]. split; [exact Hs |].
      intros j q Hj Hq. apply (Hlt (S j) q); [lia | exact Hq].
Qed.

Lemma filter_none (startDate : Z) (l : list StockPriceData) :
  (forall p, In p l -> getTime (date p) < startDate) -> filter (onOrAfter startDate) l = [].
Proof.
  intros H. induction l as [| y l IH]; [reflexivity |]. cbn [filter].
  assert (Hy : onOrAfter startDate y = false).
  { specialize (H y (or_introl eq_refl)). unfold onOrAfter.
    destruct (Z.geb_spec (getTime (date y)) startDate); [lia | reflexivity]. }
  rewrite Hy. apply IH. intros p Hp. apply H. right. exact Hp.
Qed.

(** [processData] as a function of the window: the points on or after the
    start date, in date order. *)
Lemma processData_window (first : StockData) (rest : list StockData) (startDate : Z) :
  processData (first :: rest) startDate =
  match filter (onOrAfter startDate) (JS.sort byDate (prices first)) with
  | [] => None
  | base :: later =>
    if leb (price base) zero then None
    else
      let emitted := map (rebased (price base)) (base :: later) in
      Some {| series := emitted;
              finalValue := value (last emitted (rebased (price base) base)) |}
  end.
Proof.
  destruct (processData_cases first rest startDate) as [[E N] | (i & base & F & E)].
  - rewrite E, filter_none; [reflexivity |].
    intros p Hp. apply N. apply (In_sort byDate). exact Hp.
  - rewrite E, (window_skipn _ _ _ _ (sort_ascending _) F).
    destruct F as (Hn & _). rewrite (skipn_nth_error_cons _ _ _ Hn). reflexivity.
Qed.

(** X5. The series [processData] returns holds one point for each input
    point dated on or after the start date and none for an earlier one: it
    is the rebasing, in date order, of exactly those points, all of them
    divided by the price of the earliest. *)
Theorem series_is_window (first : StockData) (rest : list StockData)
    (startDate : Z) (r : Processed) :
  processData (first :: rest) startDate = Some r ->
  exists base later,
    filter (onOrAfter startDate) (JS.sort byDate (prices first)) = base :: later /\
    series r = map (rebased (price base)) (base :: later) /\
    List.length (series r) = List.length (filter (onOrAfter startDate) (prices first)) /\
    Forall (fun p => startDate <= getTime (date p)) (base :: later).
Proof.
  intros H. rewrite processData_window in H.
  destruct (filter (onOrAfter startDate) (JS.sort byDate (prices first)))
    as [| base later] eqn:E; [discriminate |].
  destruct (leb (price base) zero); [discriminate |].
  injection H as <-. exists base, later. cbn [series].
  split; [reflexivity |]. split; [reflexivity |]. split.
  - change (rebased (price base) base :: map (rebased (price base)) later)
      with (map (rebased (price base)) (base :: later)).
    rewrite length_map, <- E, <- sort_filter, length_sort. reflexivity.
  - apply Forall_forall. intros p Hp. rewrite <- E in Hp.
    apply filter_In in Hp as [_ Hp]. unfold onOrAfter in Hp. lia.
Qed.

Lemma series_is_window_witness :
  exists r,
    processData
      [mkStock "AAPL"
         [mkPrice (mkDate 2024 1 3) (ofZ 150); mkPrice (mkDate 2023 12 29) (ofZ 90);
          mkPrice (mkDate 2024 1 2) (ofZ 100)] None]
      (getTime (mkDate 2024 1 1)) = Some r /\
    List.length (series r) = 2%nat.
Proof.
  eexists. split; [reflexivity |].
  destruct (series_is_window
              (mkStock "AAPL"
                 [mkPrice (mkDate 2024 1 3) (ofZ 150); mkPrice (mkDate 2023 12 29) (ofZ 90);
                  mkPrice (mkDate 2024 1 2) (ofZ 100)] None)
              [] (getTime (mkDate 2024 1 1)) _ eq_refl) as (base & later & _ & _ & L & _).
  exact L.
Defined.

(** X6. Points dated before the start date have no influence: removing them
    from the input leaves the result of [processData] unchanged, whether it
    is a series or absent. *)
Theorem earlier_points_ignored (first : StockData) (rest : list StockData) (startDate : Z) :
  processData
    (mkStock (symbol first) (filter (onOrAfter startDate) (prices first)) (name first) :: rest)
    startDate
  = processData (first :: rest) startDate.
Proof.
  rewrite !processData_window. cbn [prices].
  rewrite sort_filter.
  assert (E : forall l, filter (onOrAfter startDate) (filter (onOrAfter startDate) l)
                        = filter (onOrAfter startDate) l).
  { intros l. apply forallb_filter_id. apply forallb_forall.
    intros x Hx. apply filter_In in Hx. apply Hx. }
  rewrite E. reflexivity.
Qed.

Lemma sorted_unique (l1 l2 : list StockPriceData) :
  StronglySorted before l1 -> StronglySorted before l2 -> Permutation l1 l2 -> l1 = l2.
Proof.
  intros H1. revert l2. induction H1 as [| a l1 Hl1 IH Ha]; intros l2 H2 P.
  - apply Permutation_nil in P. subst. reflexivity.
  - destruct l2 as [| b l2]; [apply Permutation_sym, Permutation_nil in P; discriminate |].
    inversion H2 as [| ? ? Hl2 Hb]; subst.
    assert (a = b).
    { assert (Ia : In a (b :: l2)) by (eapply Permutation_in; [exact P | left; reflexivity]).
      assert (Ib : In b (a :: l1))
        by (eapply Permutation_in; [symmetry; exact P | left; reflexivity]).
      destruct Ia as [-> | Ia]; [reflexivity |].
      destruct Ib as [-> | Ib]; [reflexivity |].
      rewrite Forall_forall in Ha, Hb.
      specialize (Ha b Ib). specialize (Hb a Ia). unfold before in *. lia. }
    subst b. f_equal. apply IH; [exact Hl2 |].
    eapply Permutation_cons_inv. exact P.
Qed.

(** X7. With well-formed, pairwise distinct dates the order in which the
    points arrive does not matter, nor do the symbol, the name and the
    other entries of the array: two inputs whose first series are
    rearrangements of each other get the same result. *)
Theorem input_order_irrelevant (a b : StockData) (ra rb : list StockData) (startDate : Z) :
  Forall (fun p => well_formed (date p) = true) (prices a) ->
  NoDup (map date (prices a)) ->
  Permutation (prices a) (prices b) ->
  processData (a :: ra) startDate = processData (b :: rb) startDate.
Proof.
  intros W N P. rewrite !processData_window.
  assert (E : JS.sort byDate (prices a) = JS.sort byDate (prices b)).
  { pose proof (Permutation_sort byDate (prices a)) as Pa.
    pose proof (Permutation_sort byDate (prices b)) as Pb.
    apply sorted_unique.
    - apply ascending_strict; [| | apply sort_ascending].
      + eapply Permutation_Forall; [symmetry; exact Pa | exact W].
      + eapply Permutation_NoDup; [| exact N]. apply Permutation_map. symmetry. exact Pa.
    - apply ascending_strict; [| | apply sort_ascending].
      + eapply Permutation_Forall; [| exact W]. rewrite P. symmetry. exact Pb.
      + eapply Permutation_NoDup; [| exact N]. apply Permutation_map.
        rewrite P. symmetry. exact Pb.
    - rewrite Pa, P. symmetry. exact Pb. }
  rewrite E. reflexivity.
Qed.

Lemma input_order_irrelevant_witness :
  processData
    [mkStock "AAPL" [mkPrice (mkDate 2024 1 3) (ofZ 150); mkPrice (mkDate 2024 1 2) (ofZ 100)] None]
    (getTime (mkDate 2024 1 1))
  = processData
      [mkStock "aapl" [mkPrice (mkDate 2024 1 2) (ofZ 100); mkPrice (mkDate 2024 1 3) (ofZ 150)]
         (Some "Apple"%string)]
      (getTime (mkDate 2024 1 1)).
Proof.
  apply input_order_irrelevant.
  - repeat constructor.
  - repeat constructor; cbn; intuition discriminate.
  - apply perm_swap.
Defined.

Lemma last_map {A B : Type} (f : A -> B) (l : list A) (d : A) :
  last (map f l) (f d) = f (last l d).
Proof.
  induction l as [| a l IH]; [reflexivity |].
  destruct l as [| b l']; [reflexivity |]. exact IH.
Qed.

Lemma last_skipn {A : Type} (l : list A) (i : nat) (d d' : A) :
  (i < List.length l)%nat -> last (skipn i l) d = last l d'.
Proof.
  revert i. induction l as [| a l IH]; intros i Hi; [cbn in Hi; lia |].
  destruct i as [| i].
  - cbn [skipn]. destruct l as [| b l']; [reflexivity |].
    clear. revert a b. induction l' as [| c l' IH]; intros a b; [reflexivity |].
    cbn [last] in *. apply (IH b c).
  - cbn [skipn]. cbn [List.length] in Hi. rewrite (IH i) by lia.
    destruct l as [| b l']; [cbn in Hi; lia | reflexivity].
Qed.

(** X8. The final value is the rebased price of the latest point: 100 times
    the price of the last point in date order divided by the price of the
    first point dated on or after the start date. *)
Theorem final_value_latest (first : StockData) (rest : list StockData)
    (startDate : Z) (r : Processed) (d : StockPriceData) :
  processData (first :: rest) startDate = Some r ->
  let sorted := JS.sort byDate (prices first) in
  exists i base,
    firstOnOrAfter startDate sorted i base /\
    Forall (fun p => notAfter p (last sorted d)) sorted /\
    finalValue r = mul hundred (div (price (last sorted d)) (price base)).
Proof.
  intros H sorted.
  destruct (processData_cases first rest startDate) as [[E _] | (i & base & F & E)];
    [congruence |].
  fold sorted in F, E. rewrite E in H.
  destruct (leb (price base) zero); [discriminate |].
  injection H as <-. cbn [finalValue]. exists i, base.
  split; [exact F |].
  destruct F as (Hn & _).
  assert (Hi : (i < List.length sorted)%nat) by (apply nth_error_Some; congruence).
  split.
  - pose proof (sort_ascending (prices first)) as Asc. fold sorted in Asc.
    assert (Hne : sorted <> []) by (intros E0; rewrite E0 in Hi; cbn in Hi; lia).
    clear - Asc Hne. unfold ascending in Asc.
    induction Asc as [| a l Hl IH Ha]; [contradiction |].
    destruct l as [| b l'].
    + constructor; [unfold notAfter; cbn; lia | constructor].
    + assert (Hb : b :: l' <> []) by discriminate.
      specialize (IH Hb). change (last (a :: b :: l') d) with (last (b :: l') d).
      constructor; [| exact IH].
      rewrite Forall_forall in Ha. apply Ha. apply last_In. exact Hb.
  - rewrite last_map, (last_skipn sorted i base d Hi). reflexivity.
Qed.

Lemma final_value_latest_witness :
  exists r,
    processData
      [mkStock "AAPL"
         [mkPrice (mkDate 2024 1 3) (ofZ 150); mkPrice (mkDate 2023 12 29) (ofZ 90);
          mkPrice (mkDate 2024 1 2) (ofZ 100)] None]
      (getTime (mkDate 2024 1 1)) = Some r /\
    finalValue r = ofZ 150.
Proof.
  eexists. split; [reflexivity |].
  destruct (final_value_latest
              (mkStock "AAPL"
                 [mkPrice (mkDate 2024 1 3) (ofZ 150); mkPrice (mkDate 2023 12 29) (ofZ 90);
                  mkPrice (mkDate 2024 1 2) (ofZ 100)] None)
              [] (getTime (mkDate 2024 1 1)) _ (mkPrice (mkDate 2024 1 3) (ofZ 150)) eq_refl)
    as (i & base & _ & _ & _).
  reflexivity.
Defined.

(** ** The orchestrator, continued *)

(** X9. When [fetchComparisonData] settles with both tickers filled in, the
    loading flag is off and either the call failed, the comparison is null
    and the error is not empty, or it succeeded, the comparison is set and
    the error is left as it stands at that moment.  So if nothing has
    written an error since the call, the comparison is null exactly when
    the error is not empty; but the settlement of a success does not clear
    the error, and the message of an overlapping call that failed in the
    meantime stays beside the new comparison.  With a ticker missing the
    call clears the comparison and the error and leaves the loading flag as
    it was, whatever the fetches would have returned. *)
Theorem result_or_error (tz now : Z) (ticker1 ticker2 timeframe : string)
    (f1 f2 : Fetched) (secondFirst : bool) (meanwhile : View -> View) (v : View) :
  let atSettlement := meanwhile (fetchComparisonData_begin v) in
  let v' := fetchComparisonData tz now ticker1 ticker2 timeframe f1 f2 secondFirst meanwhile v in
  (ticker1 <> ""%string -> ticker2 <> ""%string ->
   loading v' = false /\
   ((comparisonData v' = None /\ error v' <> ""%string) \/
    (exists c, comparisonData v' = Some c /\ error v' = error atSettlement)) /\
   (error atSettlement = ""%string ->
    (comparisonData v' = None <-> error v' <> ""%string)) /\
   (forall tz0 now0 other1 other2 timeframe0 g1 g2 first0 message c,
      compare other1 other2 (getTimeframeStartDate tz0 now0 timeframe0) g1 g2 first0
        = inl message ->
      compare ticker1 ticker2 (getTimeframeStartDate tz now timeframe) f1 f2 secondFirst
        = inr c ->
      meanwhile = fetchComparisonData_settle tz0 now0 other1 other2 timeframe0 g1 g2 first0 ->
      comparisonData v' = Some c /\ error v' <> ""%string)) /\
  (ticker1 = ""%string \/ ticker2 = ""%string ->
   comparisonData v' = None /\ error v' = ""%string /\ loading v' = loading v).
Proof.
  intros atSettlement v'. split.
  - intros N1 N2.
    assert (T1 : JS.truthy ticker1 = true) by (destruct ticker1; [contradiction | reflexivity]).
    assert (T2 : JS.truthy ticker2 = true) by (destruct ticker2; [contradiction | reflexivity]).
    unfold v'. rewrite (fetchComparisonData_settled _ _ _ _ _ _ _ _ _ _ T1 T2).
    fold atSettlement.
    destruct (compare ticker1 ticker2 _ f1 f2 secondFirst) as [message | result] eqn:E;
      cbn [comparisonData error loading].
    + assert (Hm : JS.orElse message "An unknown error occurred." <> ""%string)
        by (apply truthy_not_empty, orElse_truthy; reflexivity).
      split; [reflexivity |]. split; [left; split; [reflexivity | exact Hm] |].
      split; [intros _; split; [intros _; exact Hm | reflexivity] |].
      intros; discriminate.
    + split; [reflexivity |]. split; [right; eauto |].
      split.
      * intros E0. rewrite E0. split; [discriminate | intros H; contradiction H; reflexivity].
      * intros tz0 now0 o1 o2 tf0 g1 g2 first0 message c Ea Eb Em.
        injection Eb as <-. split; [reflexivity |].
        unfold atSettlement. rewrite Em. unfold fetchComparisonData_settle.
        rewrite Ea. cbn [setLoading setComparisonData setError error].
        apply truthy_not_empty, orElse_truthy. reflexivity.
  - intros H. unfold v', fetchComparisonData.
    assert (G : negb (JS.truthy ticker1) || negb (JS.truthy ticker2) = true).
    { destruct H as [-> | ->]; [reflexivity |]. apply orb_true_r. }
    rewrite G. repeat split.
Qed.

Lemma result_or_error_witness :
  let d := mkStock "MSFT" [mkPrice (mkDate 2024 1 2) (ofZ 9)] None in
  let v := {| comparisonData := None; loading := false; error := "" |} in
  let v' := fetchComparisonData 0 (getTime (mkDate 2024 6 15)) "AAPL" "MSFT" "1y"
              (Resolved true (inr d)) (Resolved true (inr d)) false
              (fetchComparisonData_settle 0 (getTime (mkDate 2024 6 15)) "AAP" "MSFT" "1y"
                 (Resolved false (inl ""%string)) (Resolved true (inr d)) false)
              v in
  exists c, comparisonData v' = Some c /\ error v' <> ""%string.
Proof.
  cbv zeta.
  destruct (compare "AAPL" "MSFT" (getTimeframeStartDate 0 (getTime (mkDate 2024 6 15)) "1y")
              (Resolved true (inr (mkStock "MSFT" [mkPrice (mkDate 2024 1 2) (ofZ 9)] None)))
              (Resolved true (inr (mkStock "MSFT" [mkPrice (mkDate 2024 1 2) (ofZ 9)] None)))
              false) as [m | c] eqn:Eb; [vm_compute in Eb; discriminate |].
  assert (Ea : compare "AAP" "MSFT" (getTimeframeStartDate 0 (getTime (mkDate 2024 6 15)) "1y")
                 (Resolved false (inl ""%string))
                 (Resolved true (inr (mkStock "MSFT" [mkPrice (mkDate 2024 1 2) (ofZ 9)] None)))
                 false = inl "Failed to fetch stock data. Check ticker AAP."%string)
    by reflexivity.
  exists c.
  destruct (result_or_error 0 (getTime (mkDate 2024 6 15)) "AAPL" "MSFT" "1y"
              (Resolved true (inr (mkStock "MSFT" [mkPrice (mkDate 2024 1 2) (ofZ 9)] None)))
              (Resolved true (inr (mkStock "MSFT" [mkPrice (mkDate 2024 1 2) (ofZ 9)] None)))
              false
              (fetchComparisonData_settle 0 (getTime (mkDate 2024 6 15)) "AAP" "MSFT" "1y"
                 (Resolved false (inl ""%string))
                 (Resolved true (inr (mkStock "MSFT" [mkPrice (mkDate 2024 1 2) (ofZ 9)] None)))
                 false)
              {| comparisonData := None; loading := false; error := "" |}) as (H & _).
  destruct (H ltac:(discriminate) ltac:(discriminate)) as (_ & _ & _ & G).
  exact (G _ _ _ _ _ _ _ _ _ _ Ea Eb eq_refl).
Defined.

(** X10. When both responses are ok and each series has a point dated on or
    after the start date, the first of them with a positive price, the
    settlement sets the comparison and turns the loading flag off, whatever
    was written to the state in the meantime: the comparison carries the
    upper-cased tickers and both of its series begin with the value 100 at
    the timestamp of their first point in the window.  The error is left as
    it stands at settlement: empty when nothing has written one since the
    call. *)
Theorem both_series_start_at_100 (tz now : Z) (ticker1 ticker2 timeframe : string)
    (d1 d2 : StockData) (secondFirst : bool) (meanwhile : View -> View) (v : View)
    (base1 base2 : StockPriceData) (later1 later2 : list StockPriceData) :
  ticker1 <> ""%string -> ticker2 <> ""%string ->
  let startDate := getTimeframeStartDate tz now timeframe in
  filter (onOrAfter startDate) (JS.sort byDate (prices d1)) = base1 :: later1 ->
  filter (onOrAfter startDate) (JS.sort byDate (prices d2)) = base2 :: later2 ->
  positive_real (price base1) = true -> positive_real (price base2) = true ->
  let v' := fetchComparisonData tz now ticker1 ticker2 timeframe
              (Resolved true (inr d1)) (Resolved true (inr d2)) secondFirst meanwhile v in
  exists c rest1 rest2,
    comparisonData v' = Some c /\ loading v' = false /\
    error v' = error (meanwhile (fetchComparisonData_begin v)) /\
    error (fetchComparisonData_begin v) = ""%string /\
    Comparator.ticker1 c = JS.toUpperCase ticker1 /\
    Comparator.ticker2 c = JS.toUpperCase ticker2 /\
    series1 c = {| time := dateToUTCTimestamp (date base1); value := hundred |} :: rest1 /\
    series2 c = {| time := dateToUTCTimestamp (date base2); value := hundred |} :: rest2.
Proof.
  intros N1 N2 startDate W1 W2 P1 P2 v'.
  assert (T1 : JS.truthy ticker1 = true) by (destruct ticker1; [contradiction | reflexivity]).
  assert (T2 : JS.truthy ticker2 = true) by (destruct ticker2; [contradiction | reflexivity]).
  unfold v'. rewrite (fetchComparisonData_settled _ _ _ _ _ _ _ _ _ _ T1 T2).
  fold startDate. unfold compare. cbn [Promise_all bind negb orb].
  rewrite !processData_window, W1, W2.
  rewrite (positive_real_not_leb _ P1), (positive_real_not_leb _ P2).
  cbv zeta. cbn [map series finalValue comparisonData error loading
         Comparator.ticker1 Comparator.ticker2 series1 series2].
  do 3 eexists. repeat split.
  - unfold rebased. rewrite (rebase_self _ P1). reflexivity.
  - unfold rebased. rewrite (rebase_self _ P2). reflexivity.
Qed.

Lemma both_series_start_at_100_witness :
  let d1 := mkStock "AAPL" [mkPrice (mkDate 2024 1 2) (ofZ 3); mkPrice (mkDate 2024 1 3) (ofZ 7)] None in
  let d2 := mkStock "MSFT" [mkPrice (mkDate 2024 1 2) (ofZ 9)] None in
  let v := {| comparisonData := None; loading := true; error := "old" |} in
  let v' := fetchComparisonData 0 (getTime (mkDate 2024 6 15)) "aapl" "msft" "1y"
              (Resolved true (inr d1)) (Resolved true (inr d2)) false (fun x => x) v in
  exists c rest1 rest2,
    comparisonData v' = Some c /\ loading v' = false /\
    error v' = ""%string /\
    Comparator.ticker1 c = "AAPL"%string /\ Comparator.ticker2 c = "MSFT"%string /\
    series1 c = {| time := dateToUTCTimestamp (mkDate 2024 1 2); value := hundred |} :: rest1 /\
    series2 c = {| time := dateToUTCTimestamp (mkDate 2024 1 2); value := hundred |} :: rest2.
Proof.
  cbv zeta.
  destruct (both_series_start_at_100 0 (getTime (mkDate 2024 6 15)) "aapl" "msft" "1y"
           (mkStock "AAPL" [mkPrice (mkDate 2024 1 2) (ofZ 3); mkPrice (mkDate 2024 1 3) (ofZ 7)] None)
           (mkStock "MSFT" [mkPrice (mkDate 2024 1 2) (ofZ 9)] None)
           false (fun x => x) {| comparisonData := None; loading := true; error := "old" |}
           (mkPrice (mkDate 2024 1 2) (ofZ 3)) (mkPrice (mkDate 2024 1 2) (ofZ 9))
           [mkPrice (mkDate 2024 1 3) (ofZ 7)] []
           ltac:(discriminate) ltac:(discriminate) eq_refl eq_refl eq_refl eq_refl)
    as (c & rest1 & rest2 & H1 & H2 & H3 & H4 & H5 & H6 & H7 & H8).
  exists c, rest1, rest2. rewrite H3.
  repeat split; assumption.
Defined.

(** ** The debounce effect, continued *)

Import Spec2.

Lemma run_app (events events' : list Event) (c : Component) :
  run (events ++ events') c = run events' (run events c).
Proof. unfold run. apply fold_left_app. Qed.

(** A run of changes followed by a wait, from any state the component can be
    in: the timers that were due before the first change fire, then the
    changes leave their survivors. *)
Lemma run_changes (rest : list (Z * Inputs)) :
  forall (t : Z) (i : Inputs) (c : Component) (T : Z),
    onlyRefPending c ->
    Forall (fun ch => fst ch + debounceDelay <= T) ((t, i) :: rest) ->
    calls (run (map change ((t, i) :: rest) ++ [Elapse T]) c) =
    calls c
    ++ map (fun x => (due x, closure x)) (filter (fun x => due x <=? t) (timers c))
    ++ survivors ((t, i) :: rest).
Proof.
  induction rest as [| [t' i'] rest IH]; intros t i c T P HT.
  - change (map change [(t, i)] ++ [Elapse T]) with [InputChange t i; Elapse T].
    cbn [run fold_left].
    destruct (step_InputChange c t i P) as (Tm & Cl & _).
    set (c1 := step c (InputChange t i)) in *.
    cbn [step runTimers calls]. rewrite Tm, Cl, <- app_assoc. f_equal. f_equal.
    cbn [survivors]. rewrite andb_true_r, app_nil_r.
    inversion HT as [| ? ? Ht _]; subst. cbn [fst] in Ht.
    destruct (qualifying i); [| reflexivity].
    cbn [filter due closure map].
    destruct (Z.leb_spec (t + debounceDelay) T); [reflexivity | lia].
  - change (map change ((t, i) :: (t', i') :: rest) ++ [Elapse T])
      with (InputChange t i :: (map change ((t', i') :: rest) ++ [Elapse T])).
    change (run (InputChange t i :: ?l) c) with (run l (step c (InputChange t i))).
    destruct (step_InputChange c t i P) as (Tm & Cl & P1).
    set (c1 := step c (InputChange t i)) in *.
    inversion HT as [| ? ? _ HT']; subst.
    rewrite (IH t' i' c1 T P1 HT'), Tm, Cl, <- !app_assoc. f_equal. f_equal.
    change (survivors ((t, i) :: (t', i') :: rest))
      with ((if qualifying i && (t + debounceDelay <=? t') then [(t + debounceDelay, i)] else [])
            ++ survivors ((t', i') :: rest)).
    f_equal.
    destruct (qualifying i); [| reflexivity].
    cbn [filter due closure map andb].
    destruct (t + debounceDelay <=? t'); reflexivity.
Qed.

(** X11. The debounce in full: from a component with no pending timer, a
    run of input changes in time order followed by 500 ms of quiet makes
    exactly the calls of [fetchComparisonData] of the changes that have both
    tickers filled in and are not followed by another change within
    500 ms; each comes 500 ms after its change, with the inputs of that
    change, in the order of the changes. *)
Theorem debounce_survivors (c0 : Component) (changes : list (Z * Inputs)) (T : Z) :
  timers c0 = [] ->
  inTimeOrder changes ->
  Forall (fun ch => fst ch + debounceDelay <= T) changes ->
  calls (run (map change changes ++ [Elapse T]) c0) = calls c0 ++ survivors changes.
Proof.
  intros E0 _ HT.
  assert (P0 : onlyRefPending c0).
  { unfold onlyRefPending. rewrite E0. intros x []. }
  destruct changes as [| [t i] rest].
  - cbn [map app run fold_left step runTimers calls survivors]. rewrite E0. reflexivity.
  - rewrite (run_changes rest t i c0 T P0 HT), E0. reflexivity.
Qed.

Lemma debounce_survivors_witness :
  let a := {| input1 := "AAPL"; input2 := "MSFT"; inputTimeframe := "1y" |} in
  let b := {| input1 := "AAPL"; input2 := "MSFT"; inputTimeframe := "3y" |} in
  let e := {| input1 := "AAPL"; input2 := ""; inputTimeframe := "3y" |} in
  let g := {| input1 := "AAPL"; input2 := "GOOG"; inputTimeframe := "3y" |} in
  calls (run (map change [(1000, a); (1600, b); (1700, e); (3000, g)] ++ [Elapse 4000])
           (mounted 0))
  = [(1500, a); (3500, g)].
Proof.
  cbv zeta.
  apply (debounce_survivors (mounted 0)
           [(1000, {| input1 := "AAPL"; input2 := "MSFT"; inputTimeframe := "1y" |});
            (1600, {| input1 := "AAPL"; input2 := "MSFT"; inputTimeframe := "3y" |});
            (1700, {| input1 := "AAPL"; input2 := ""; inputTimeframe := "3y" |});
            (3000, {| input1 := "AAPL"; input2 := "GOOG"; inputTimeframe := "3y" |})]
           4000).
  - reflexivity.
  - repeat constructor; cbn; lia.
  - repeat constructor; cbn; unfold debounceDelay; lia.
Defined.

Lemma step_timers_bound (c : Component) (e : Event) :
  onlyRefPending c -> (List.length (timers c) <= 1)%nat ->
  (List.length (timers (step c e)) <= 1)%nat.
Proof.
  intros P L. destruct e as [t i | t].
  - destruct (step_InputChange c t i P) as (Tm & _). rewrite Tm.
    destruct (qualifying i); cbn; lia.
  - cbn [step runTimers timers].
    pose proof (filter_length_le (fun x => negb (due x <=? t)) (timers c)). lia.
Qed.

(** X12. However the inputs change and however time passes after the first
    render, at most one timer is pending, and it is the one
    [debounceTimerRef] holds. *)
Theorem at_most_one_timer (events : list Event) (t0 : Z) :
  let c := run events (mounted t0) in
  (List.length (timers c) <= 1)%nat /\
  (forall x, In x (timers c) -> debounceTimerRef c = Some (timerId x)).
Proof.
  cbv zeta. split; [| apply run_onlyRefPending, mounted_onlyRefPending].
  induction events as [| e events IH] using rev_ind.
  - cbn. lia.
  - rewrite run_app. cbn [run fold_left].
    apply step_timers_bound; [| exact IH].
    apply run_onlyRefPending, mounted_onlyRefPending.
Qed.

Lemma clearPending_view (c : Component) : view (clearPending c) = view c.
Proof. unfold clearPending. destruct (debounceTimerRef c); reflexivity. Qed.

Lemma step_InputChange_view (c : Component) (t : Z) (i : Inputs) :
  view (step c (InputChange t i)) =
  {| comparisonData := None; loading := qualifying i; error := "" |}.
Proof.
  cbn [step]. unfold effect, cleanup. fold (qualifying i).
  destruct (qualifying i);
    cbn [setTimeoutRef withView view]; rewrite clearPending_view;
    cbn [withView view]; reflexivity.
Qed.

(** X13. Every input change at once clears the shown comparison and the
    error and sets the loading flag exactly when both tickers are filled
    in.  A change that leaves a ticker empty cancels the pending timer: no
    timer is pending after it, and if the timer was not yet due no call is
    made however long one waits. *)
Theorem incomplete_input_cancels (c : Component) (t T : Z) (i : Inputs) :
  onlyRefPending c ->
  view (step c (InputChange t i)) =
    {| comparisonData := None; loading := qualifying i; error := "" |} /\
  (qualifying i = false ->
   timers (step c (InputChange t i)) = [] /\
   ((forall x, In x (timers c) -> t < due x) ->
    calls (run [InputChange t i; Elapse T] c) = calls c)).
Proof.
  intros P. split; [apply step_InputChange_view |].
  intros Q. destruct (step_InputChange c t i P) as (Tm & Cl & _).
  rewrite Q in Tm. split; [exact Tm |].
  intros Hdue.
  change (calls (run [InputChange t i; Elapse T] c))
    with (calls (step c (InputChange t i))
          ++ map (fun x => (due x, closure x))
               (filter (fun x => due x <=? T) (timers (step c (InputChange t i))))).
  rewrite Tm, Cl. cbn [filter map]. rewrite app_nil_r.
  assert (F : filter (fun x => due x <=? t) (timers c) = []).
  { revert Hdue. generalize (timers c) as l.
    induction l as [| x l IH]; intros Hdue; [reflexivity |]. cbn [filter].
    destruct (Z.leb_spec (due x) t) as [L | _].
    - specialize (Hdue x (or_introl eq_refl)). lia.
    - apply IH. intros y Hy. apply Hdue. right. exact Hy. }
  rewrite F. cbn [map]. apply app_nil_r.
Qed.

Lemma incomplete_input_cancels_witness :
  let a := {| input1 := "AAPL"; input2 := "MSFT"; inputTimeframe := "1y" |} in
  let e := {| input1 := ""; input2 := "MSFT"; inputTimeframe := "1y" |} in
  calls (run [InputChange 1300 e; Elapse 9000] (step (mounted 0) (InputChange 1000 a)))
  = calls (step (mounted 0) (InputChange 1000 a)).
Proof.
  cbv zeta.
  destruct (incomplete_input_cancels
              (step (mounted 0)
                 (InputChange 1000 {| input1 := "AAPL"; input2 := "MSFT"; inputTimeframe := "1y" |}))
              1300 9000 {| input1 := ""; input2 := "MSFT"; inputTimeframe := "1y" |})
    as (_ & H).
  - intros x [<- | []]. reflexivity.
  - destruct (H eq_refl) as (_ & G). apply G.
    intros x [<- | []]. vm_compute. reflexivity.
Defined.

Lemma fromChange_app (events events' : list Event) (call : Z * Inputs) :
  fromChange events call -> fromChange (events ++ events') call.
Proof. unfold fromChange. intros H. apply in_or_app. left. exact H. Qed.

(** X14. Every call of [fetchComparisonData] the timers make comes exactly
    500 ms after an input change, with the inputs of that change, and those
    inputs have both tickers filled in: the timer never calls it with a
    ticker missing, and never without a change before it. *)
Theorem calls_come_from_changes (events : list Event) (t0 : Z) :
  Forall (fun call => qualifying (snd call) = true /\ fromChange events call)
         (calls (run events (mounted t0))).
Proof.
  assert (Inv : Forall (fun x => qualifying (closure x) = true /\
                                 fromChange events (due x, closure x))
                       (timers (run events (mounted t0))) /\
                Forall (fun call => qualifying (snd call) = true /\ fromChange events call)
                       (calls (run events (mounted t0)))).
  { induction events as [| e events IH] using rev_ind.
    - split; constructor.
    - destruct IH as (It & Ic). rewrite run_app. cbn [run fold_left].
      pose proof (run_onlyRefPending events (mounted t0) (mounted_onlyRefPending t0)) as P.
      set (c := run events (mounted t0)) in *.
      assert (It' : Forall (fun x => qualifying (closure x) = true /\
                                     fromChange (events ++ [e]) (due x, closure x)) (timers c)).
      { eapply Forall_impl; [| exact It]. intros x [Q F]. split; [exact Q |].
        apply fromChange_app, F. }
      assert (Ic' : Forall (fun call => qualifying (snd call) = true /\
                                        fromChange (events ++ [e]) call) (calls c)).
      { eapply Forall_impl; [| exact Ic]. intros x [Q F]. split; [exact Q |].
        apply fromChange_app, F. }
      assert (Fired : forall t, Forall (fun call => qualifying (snd call) = true /\
                                          fromChange (events ++ [e]) call)
                                  (map (fun x => (due x, closure x))
                                       (filter (fun x => due x <=? t) (timers c)))).
      { intros t. apply Forall_forall. intros call Hc. apply in_map_iff in Hc.
        destruct Hc as (x & <- & Hx). apply filter_In in Hx as [Hx _].
        rewrite Forall_forall in It'. apply (It' x Hx). }
      destruct e as [t i | t].
      + destruct (step_InputChange c t i P) as (Tm & Cl & _). rewrite Tm, Cl. split.
        * destruct (qualifying i) eqn:Q; constructor; [| constructor].
          cbn [closure due]. split; [exact Q |].
          unfold fromChange. cbn [fst snd]. apply in_or_app. right. left.
          f_equal. lia.
        * apply Forall_app. split; [exact Ic' | apply Fired].
      + cbn [step runTimers timers calls]. split.
        * apply Forall_forall. intros x Hx. apply filter_In in Hx as [Hx _].
          rewrite Forall_forall in It'. apply (It' x Hx).
        * apply Forall_app. split; [exact Ic' | apply Fired]. }
  apply Inv.
Qed.

(** ** The route, continued *)

Lemma upper_idempotent (c : ascii) : JS.upper (JS.upper c) = JS.upper c.
Proof. destruct c as [[] [] [] [] [] [] [] []]; reflexivity. Qed.

Lemma toUpperCase_idempotent (s : string) :
  JS.toUpperCase (JS.toUpperCase s) = JS.toUpperCase s.
Proof.
  induction s as [| c s IH]; [reflexivity |].
  cbn [JS.toUpperCase]. rewrite upper_idempotent, IH. reflexivity.
Qed.

(** X15. The [prices] of an answer hold one row for each bar of the
    provider that has its open, high, low and close, in the order of the
    bars, and no row for a bar that lacks one of them; a missing adjusted
    close does not drop the bar, its price is then the rounded close.  The
    date of a row is the UTC day of the bar and its numbers are the rounded
    numbers of the bar. *)
Theorem formatPrices_complete_bars (w : StockRoute.World) (history : list StockRoute.Quote) :
  Forall2
    (fun bar row =>
       StockRoute.date row = toISODate (StockRoute.q_date bar) /\
       Some (StockRoute.price row) =
         option_map (StockRoute.toFixed2 w)
           (match StockRoute.adjclose bar with
            | Some a => Some a
            | None => StockRoute.q_close bar
            end) /\
       Some (StockRoute.open row) = option_map (StockRoute.toFixed2 w) (StockRoute.q_open bar) /\
       Some (StockRoute.high row) = option_map (StockRoute.toFixed2 w) (StockRoute.q_high bar) /\
       Some (StockRoute.low row) = option_map (StockRoute.toFixed2 w) (StockRoute.q_low bar) /\
       Some (StockRoute.close row) = option_map (StockRoute.toFixed2 w) (StockRoute.q_close bar))
    (filter complete history) (StockRoute.formatPrices w history) /\
  (List.length (StockRoute.formatPrices w history) <= List.length history)%nat.
Proof.
  induction history as [| bar history [IH IHl]]; [split; [constructor | reflexivity] |].
  cbn [filter StockRoute.formatPrices]. unfold complete, StockRoute.formatQuote, StockRoute.nullish.
  destruct bar as [dt [a |] [o |] [h |] [l |] [c |]];
    cbn [StockRoute.adjclose StockRoute.q_open StockRoute.q_high StockRoute.q_low
         StockRoute.q_close StockRoute.q_date];
    (split; [try exact IH | cbn [List.length]; lia]);
    constructor; try exact IH; cbn; repeat split.
Qed.

(** X16. Every answer of the route has status 200, 400, 404 or 500.  The
    body is the stock data exactly when the status is 200, and then its
    symbol is the requested symbol in upper case, which is not empty;
    otherwise the body is an error message. *)
Theorem GET_status_and_body (w : StockRoute.World) (symbolParam timeframeParam : option string) :
  let response := StockRoute.GET w symbolParam timeframeParam in
  (StockRoute.status response = 200 \/ StockRoute.status response = 400 \/
   StockRoute.status response = 404 \/ StockRoute.status response = 500) /\
  (StockRoute.status response = 200 ->
   exists s name prices,
     symbolParam = Some s /\ JS.toUpperCase s <> ""%string /\
     StockRoute.body response = StockRoute.StockJson (JS.toUpperCase s) name prices) /\
  (StockRoute.status response <> 200 ->
   exists message, StockRoute.body response = StockRoute.ErrorJson message).
Proof.
  cbv zeta. unfold StockRoute.GET.
  set (symbol := match symbolParam with Some s => JS.toUpperCase s | None => ""%string end).
  destruct (JS.truthy symbol) eqn:T; cbn [negb].
  - unfold StockRoute.fetchStock.
    destruct (StockRoute.chart w symbol _ _) as [e | chartResult].
    + destruct (StockRoute.notFound e); cbn [StockRoute.jsonStatus StockRoute.status StockRoute.body];
        (split; [auto |]); (split; [discriminate | intros _; eexists; reflexivity]).
    + destruct (StockRoute.quote w symbol) as [e | q].
      * destruct (StockRoute.notFound e); cbn [StockRoute.jsonStatus StockRoute.status StockRoute.body];
          (split; [auto |]); (split; [discriminate | intros _; eexists; reflexivity]).
      * cbn [StockRoute.json StockRoute.status StockRoute.body].
        split; [auto |]. split; [| intros H; contradiction H; reflexivity].
        intros _. destruct symbolParam as [s |]; [| discriminate].
        exists s. do 2 eexists. split; [reflexivity |].
        split; [| reflexivity]. unfold symbol in T. intros E. rewrite E in T. discriminate.
  - cbn [StockRoute.jsonStatus StockRoute.status StockRoute.body].
    split; [auto |]. split; [discriminate | intros _; eexists; reflexivity].
Qed.

Lemma GET_status_and_body_witness :
  let w := {| StockRoute.now := getTime (mkDate 2024 6 15);
              StockRoute.tz := 0;
              StockRoute.chart := fun _ _ _ => inr (Some []);
              StockRoute.quote := fun _ => inr None;
              StockRoute.toFixed2 := fun x => x |} in
  exists s name prices,
    Some "goog"%string = Some s /\ JS.toUpperCase s <> ""%string /\
    StockRoute.body (StockRoute.GET w (Some "goog"%string) None)
    = StockRoute.StockJson (JS.toUpperCase s) name prices.
Proof.
  cbv zeta.
  destruct (GET_status_and_body
              {| StockRoute.now := getTime (mkDate 2024 6 15);
                 StockRoute.tz := 0;
                 StockRoute.chart := fun _ _ _ => inr (Some []);
                 StockRoute.quote := fun _ => inr None;
                 StockRoute.toFixed2 := fun x => x |}
              (Some "goog"%string) None) as (_ & H & _).
  apply H. reflexivity.
Defined.

(** X17. The route does not tell the case of the symbol: a request for a
    symbol and a request for its upper-case form get the same answer. *)
Theorem GET_symbol_case (w : StockRoute.World) (s : string) (timeframeParam : option string) :
  StockRoute.GET w (Some s) timeframeParam =
  StockRoute.GET w (Some (JS.toUpperCase s)) timeframeParam.
Proof. unfold StockRoute.GET. rewrite toUpperCase_idempotent. reflexivity. Qed.

Lemma rangeStart_default (w : StockRoute.World) (timeframe : string) :
  timeframe <> "1y"%string -> timeframe <> "3y"%string ->
  timeframe <> "5y"%string -> timeframe <> "all"%string ->
  StockRoute.rangeStart w timeframe = StockRoute.rangeStart w "2y".
Proof.
  intros H1 H3 H5 Ha. unfold StockRoute.rangeStart.
  destruct (String.eqb_spec timeframe "1y"); [contradiction |].
  destruct (String.eqb_spec timeframe "3y"); [contradiction |].
  destruct (String.eqb_spec timeframe "5y"); [contradiction |].
  destruct (String.eqb_spec timeframe "all"); [contradiction |].
  cbn [String.eqb Ascii.eqb Bool.eqb]. reflexivity.
Qed.

(** X18. A request without a timeframe, with an empty one or with one that
    is not "1y", "3y", "5y" or "all" is answered as a request for "2y". *)
Theorem GET_timeframe_default (w : StockRoute.World) (symbolParam : option string)
    (timeframe : string) :
  timeframe <> "1y"%string -> timeframe <> "3y"%string ->
  timeframe <> "5y"%string -> timeframe <> "all"%string ->
  StockRoute.GET w symbolParam (Some timeframe) = StockRoute.GET w symbolParam (Some "2y"%string) /\
  StockRoute.GET w symbolParam None = StockRoute.GET w symbolParam (Some "2y"%string).
Proof.
  intros H1 H3 H5 Ha. split; [| reflexivity].
  unfold StockRoute.GET, StockRoute.fetchStock.
  assert (E : StockRoute.rangeStart w (StockRoute.stringOr (Some timeframe) "2y")
              = StockRoute.rangeStart w (StockRoute.stringOr (Some "2y"%string) "2y")).
  { unfold StockRoute.stringOr, JS.orElse. destruct (JS.truthy timeframe); [| reflexivity].
    cbn [JS.truthy]. apply rangeStart_default; assumption. }
  rewrite E. reflexivity.
Qed.

Lemma GET_timeframe_default_witness :
  let w := {| StockRoute.now := getTime (mkDate 2024 6 15);
              StockRoute.tz := 0;
              StockRoute.chart := fun _ _ _ => inr (Some []);
              StockRoute.quote := fun _ => inr None;
              StockRoute.toFixed2 := fun x => x |} in
  StockRoute.GET w (Some "goog"%string) (Some "10y"%string)
  = StockRoute.GET w (Some "goog"%string) (Some "2y"%string).
Proof.
  cbv zeta.
  apply (GET_timeframe_default
           {| StockRoute.now := getTime (mkDate 2024 6 15);
              StockRoute.tz := 0;
              StockRoute.chart := fun _ _ _ => inr (Some []);
              StockRoute.quote := fun _ => inr None;
              StockRoute.toFixed2 := fun x => x |}
           (Some "goog"%string) "10y"); discriminate.
Defined.



(** ** The route with the typed [catch] block *)

(** X20. In the copy of the route with the typed [catch] block, when a
    provider call throws, the answer is an error body with status 404 or
    500.  It is 404 exactly when an Error instance has "No data found" in
    its message or another object has the code "Not Found", and its text
    then names the symbol.  Otherwise the text is the message of the Error
    instance, the thrown string, the non-empty message of the object, or
    else "Failed to fetch stock data". *)
Theorem GET_typed_catch (w : StockRoute2.World) (s : string) (timeframeParam : option string)
    (e : StockRoute2.Thrown) :
  let symbol := JS.toUpperCase s in
  let timeframe := StockRoute.stringOr timeframeParam "2y" in
  let response := StockRoute2.GET w (Some s) timeframeParam in
  symbol <> ""%string ->
  StockRoute2.fetchStock w symbol timeframe = inl e ->
  let notFound :=
    (exists m, e = StockRoute2.ErrorInstance m /\ JS.includes "No data found" m = true) \/
    (exists m, e = StockRoute2.CodedObject (Some "Not Found"%string) m) in
  (StockRoute.status response = 404 <-> notFound) /\
  (StockRoute.status response <> 404 -> StockRoute.status response = 500) /\
  (notFound ->
   StockRoute.body response =
   StockRoute.ErrorJson ("Stock symbol " ++ symbol ++ " not found or no data available")) /\
  (~ notFound ->
   StockRoute.body response =
   StockRoute.ErrorJson
     match e with
     | StockRoute2.ErrorInstance m => m
     | StockRoute2.Text text => text
     | StockRoute2.CodedObject _ (Some m) => if JS.truthy m then m else "Failed to fetch stock data"
     | _ => "Failed to fetch stock data"
     end).
Proof.
  intros symbol timeframe response Hs He notFound.
  assert (T : JS.truthy symbol = true) by (destruct symbol; [contradiction | reflexivity]).
  unfold response, StockRoute2.GET. fold symbol. fold timeframe. rewrite T, He. cbn [negb].
  unfold notFound. clear notFound response He.
  assert (Yes : forall body,
            (exists m, e = StockRoute2.ErrorInstance m /\ JS.includes "No data found" m = true) \/
            (exists m, e = StockRoute2.CodedObject (Some "Not Found"%string) m) ->
            forall other,
            let r := StockRoute.jsonStatus (StockRoute.ErrorJson body) 404 in
            (StockRoute.status r = 404 <->
             (exists m, e = StockRoute2.ErrorInstance m /\ JS.includes "No data found" m = true) \/
             (exists m, e = StockRoute2.CodedObject (Some "Not Found"%string) m)) /\
            (StockRoute.status r <> 404 -> StockRoute.status r = 500) /\
            (((exists m, e = StockRoute2.ErrorInstance m /\ JS.includes "No data found" m = true) \/
              (exists m, e = StockRoute2.CodedObject (Some "Not Found"%string) m)) ->
             StockRoute.body r = StockRoute.ErrorJson body) /\
            (~ ((exists m, e = StockRoute2.ErrorInstance m /\ JS.includes "No data found" m = true) \/
                (exists m, e = StockRoute2.CodedObject (Some "Not Found"%string) m)) ->
             StockRoute.body r = StockRoute.ErrorJson other)).
  { intros body N other r. unfold r. cbn [StockRoute.jsonStatus StockRoute.status StockRoute.body].
    split; [split; [intros _; exact N | reflexivity] |].
    split; [intros H; contradiction H; reflexivity |].
    split; [reflexivity | intros H; contradiction]. }
  assert (No : forall body,
            ~ ((exists m, e = StockRoute2.ErrorInstance m /\ JS.includes "No data found" m = true) \/
               (exists m, e = StockRoute2.CodedObject (Some "Not Found"%string) m)) ->
            forall other,
            let r := StockRoute.jsonStatus (StockRoute.ErrorJson body) 500 in
            (StockRoute.status r = 404 <->
             (exists m, e = StockRoute2.ErrorInstance m /\ JS.includes "No data found" m = true) \/
             (exists m, e = StockRoute2.CodedObject (Some "Not Found"%string) m)) /\
            (StockRoute.status r <> 404 -> StockRoute.status r = 500) /\
            (((exists m, e = StockRoute2.ErrorInstance m /\ JS.includes "No data found" m = true) \/
              (exists m, e = StockRoute2.CodedObject (Some "Not Found"%string) m)) ->
             StockRoute.body r = StockRoute.ErrorJson other) /\
            (~ ((exists m, e = StockRoute2.ErrorInstance m /\ JS.includes "No data found" m = true) \/
                (exists m, e = StockRoute2.CodedObject (Some "Not Found"%string) m)) ->
             StockRoute.body r = StockRoute.ErrorJson body)).
  { intros body N other r. unfold r. cbn [StockRoute.jsonStatus StockRoute.status StockRoute.body].
    split; [split; [discriminate | intros H; contradiction] |].
    split; [reflexivity |]. split; [intros H; contradiction | reflexivity]. }
  destruct e as [m | [c |] [m |] | text |]; cbn [StockRoute2.explain].
  - destruct (JS.includes "No data found" m) eqn:I.
    + apply Yes. left. eauto.
    + apply No. intros [(m' & E & I') | (m' & E)]; congruence.
  - destruct (String.eqb_spec c "Not Found") as [-> | Nc]; [| destruct (JS.truthy m)].
    + apply Yes. right. eauto.
    + apply No. intros [(m' & E & I') | (m' & E)]; congruence.
    + apply No. intros [(m' & E & I') | (m' & E)]; congruence.
  - destruct (String.eqb_spec c "Not Found") as [-> | Nc].
    + apply Yes. right. eauto.
    + apply No. intros [(m' & E & I') | (m' & E)]; congruence.
  - destruct (JS.truthy m); apply No; intros [(m' & E & I') | (m' & E)]; congruence.
  - apply No. intros [(m' & E & I') | (m' & E)]; congruence.
  - apply No. intros [(m' & E & I') | (m' & E)]; congruence.
  - apply No. intros [(m' & E & I') | (m' & E)]; congruence.
Qed.

Lemma GET_typed_catch_witness :
  let w := {| StockRoute2.now := getTime (mkDate 2024 6 15);
              StockRoute2.tz := 0;
              StockRoute2.chart := fun _ _ _ =>
                inl (StockRoute2.ErrorInstance "Too Many Requests");
              StockRoute2.quote := fun _ => inr None;
              StockRoute2.toFixed2 := fun x => x |} in
  StockRoute.status (StockRoute2.GET w (Some "goog"%string) None) = 500.
Proof.
  cbv zeta.
  destruct (GET_typed_catch
              {| StockRoute2.now := getTime (mkDate 2024 6 15);
                 StockRoute2.tz := 0;
                 StockRoute2.chart := fun _ _ _ =>
                   inl (StockRoute2.ErrorInstance "Too Many Requests");
                 StockRoute2.quote := fun _ => inr None;
                 StockRoute2.toFixed2 := fun x => x |}
              "goog" None (StockRoute2.ErrorInstance "Too Many Requests"))
    as (_ & H & _).
  - discriminate.
  - reflexivity.
  - apply H. vm_compute. discriminate.
Defined.

Lemma formatPrices_same (w1 : StockRoute.World) (w2 : StockRoute2.World)
    (history : list StockRoute.Quote) :
  StockRoute.toFixed2 w1 = StockRoute2.toFixed2 w2 ->
  StockRoute2.formatPrices w2 history = StockRoute.formatPrices w1 history.
Proof.
  intros E. induction history as [| bar history IH]; [reflexivity |].
  cbn [StockRoute2.formatPrices StockRoute.formatPrices].
  unfold StockRoute2.formatQuote, StockRoute.formatQuote. rewrite E, IH. reflexivity.
Qed.

(** X21. The two copies of the route answer alike whenever the provider
    does not throw: with the same clock, time zone and rounding, and the
    same values returned by the provider for the requested symbol and
    range, both give the same response; and both answer a request without
    a symbol with the same 400. *)
Theorem copies_agree (w1 : StockRoute.World) (w2 : StockRoute2.World)
    (symbolParam timeframeParam : option string) :
  let symbol := match symbolParam with Some s => JS.toUpperCase s | None => ""%string end in
  let timeframe := StockRoute.stringOr timeframeParam "2y" in
  let period1 := toISODate (StockRoute.rangeStart w1 timeframe) in
  let period2 := toISODate (StockRoute.now w1) in
  StockRoute.now w1 = StockRoute2.now w2 ->
  StockRoute.tz w1 = StockRoute2.tz w2 ->
  StockRoute.toFixed2 w1 = StockRoute2.toFixed2 w2 ->
  (symbol = ""%string ->
   StockRoute2.GET w2 symbolParam timeframeParam = StockRoute.GET w1 symbolParam timeframeParam) /\
  (forall chartResult summary,
     StockRoute.chart w1 symbol period1 period2 = inr chartResult ->
     StockRoute2.chart w2 symbol period1 period2 = inr chartResult ->
     StockRoute.quote w1 symbol = inr summary ->
     StockRoute2.quote w2 symbol = inr summary ->
     StockRoute2.GET w2 symbolParam timeframeParam = StockRoute.GET w1 symbolParam timeframeParam).
Proof.
  intros symbol timeframe period1 period2 En Ez Ef.
  assert (Er : StockRoute2.rangeStart w2 timeframe = StockRoute.rangeStart w1 timeframe).
  { unfold StockRoute2.rangeStart, StockRoute.rangeStart. rewrite En, Ez. reflexivity. }
  unfold StockRoute2.GET, StockRoute.GET. fold symbol. fold timeframe. split.
  - intros ->. reflexivity.
  - intros chartResult summary C1 C2 Q1 Q2.
    unfold StockRoute2.fetchStock, StockRoute.fetchStock.
    rewrite Er, <- En. fold period1. fold period2. rewrite C1, C2, Q1, Q2.
    rewrite (formatPrices_same w1 w2 _ Ef). reflexivity.
Qed.

Lemma copies_agree_witness :
  let bars := [StockRoute.mkQuote 1718462096789 None (Some (ofZ 5)) (Some (ofZ 6))
                 (Some (ofZ 4)) (Some (ofZ 5))] in
  StockRoute2.GET
    {| StockRoute2.now := getTime (mkDate 2024 6 15); StockRoute2.tz := 0;
       StockRoute2.chart := fun _ _ _ => inr (Some bars);
       StockRoute2.quote := fun _ => inr None;
       StockRoute2.toFixed2 := fun x => x |} (Some "goog"%string) None
  = StockRoute.GET
      {| StockRoute.now := getTime (mkDate 2024 6 15); StockRoute.tz := 0;
         StockRoute.chart := fun _ _ _ => inr (Some bars);
         StockRoute.quote := fun _ => inr None;
         StockRoute.toFixed2 := fun x => x |} (Some "goog"%string) None.
Proof.
  cbv zeta.
  destruct (copies_agree
              {| StockRoute.now := getTime (mkDate 2024 6 15); StockRoute.tz := 0;
                 StockRoute.chart := fun _ _ _ =>
                   inr (Some [StockRoute.mkQuote 1718462096789 None (Some (ofZ 5)) (Some (ofZ 6))
                                (Some (ofZ 4)) (Some (ofZ 5))]);
                 StockRoute.quote := fun _ => inr None;
                 StockRoute.toFixed2 := fun x => x |}
              {| StockRoute2.now := getTime (mkDate 2024 6 15); StockRoute2.tz := 0;
                 StockRoute2.chart := fun _ _ _ =>
                   inr (Some [StockRoute.mkQuote 1718462096789 None (Some (ofZ 5)) (Some (ofZ 6))
                                (Some (ofZ 4)) (Some (ofZ 5))]);
                 StockRoute2.quote := fun _ => inr None;
                 StockRoute2.toFixed2 := fun x => x |}
              (Some "goog"%string) None eq_refl eq_refl eq_refl) as (_ & H).
  apply (H _ _ eq_refl eq_refl eq_refl eq_refl).
Defined.

(** ** The price chart component *)

Lemma local_fields_east (tz : Z) (d : ISODate) :
  well_formed d = true -> 0 <= tz < msPerDay ->
  MonthFromTime (LocalTime tz (getTime d)) = month d - 1 /\
  DateFromTime (LocalTime tz (getTime d)) = day d.
Proof.
  intros W Htz. apply well_formed_inv in W as (_ & Hm & Hd).
  destruct (fields_of_time (LocalTime tz (getTime d)) (year d) (month d - 1) (day d))
    as (_ & Gm & Gd).
  - lia.
  - replace (month d - 1 + 1) with (month d) by lia. exact Hd.
  - unfold LocalTime, getTime.
    replace (MakeDate (MakeDay (year d) (month d - 1) (day d)) 0 + tz)
      with (MakeDate (MakeDay (year d) (month d - 1) (day d)) tz) by (unfold MakeDate; lia).
    apply Day_MakeDate. exact Htz.
  - split; assumption.
Qed.

(** X22. The chart keeps the points in their order with their prices, and
    in a time zone at or east of UTC (less than a day ahead) the label of a
    point with a well-formed date is the short month name and the day of
    that date, without the year. *)
Theorem chartData_labels (tz : Z) (data : list StockPriceData) :
  Forall (fun item => well_formed (date item) = true) data ->
  0 <= tz < msPerDay ->
  map StockChart.price (StockChart.chartData tz data) = map price data /\
  map StockChart.date (StockChart.chartData tz data) =
    map (fun item =>
           (StockChart.monthShort (month (date item) - 1) ++ " "
            ++ StockChart.numeric (day (date item)))%string)
        data.
Proof.
  intros W Htz. unfold StockChart.chartData. rewrite !map_map. cbn [StockChart.price StockChart.date].
  split; [reflexivity |].
  apply map_ext_in. intros item Hi. rewrite Forall_forall in W.
  unfold StockChart.toLocaleDateString.
  destruct (local_fields_east tz (date item) (W item Hi) Htz) as (-> & ->). reflexivity.
Qed.

Lemma chartData_labels_witness :
  map StockChart.date
    (StockChart.chartData 7200000
       [mkPrice (mkDate 2024 6 15) (ofZ 3); mkPrice (mkDate 2023 6 15) (ofZ 2)])
  = ["Jun 15"%string; "Jun 15"%string].
Proof.
  destruct (chartData_labels 7200000
              [mkPrice (mkDate 2024 6 15) (ofZ 3); mkPrice (mkDate 2023 6 15) (ofZ 2)])
    as (_ & H).
  - repeat constructor.
  - unfold msPerDay. lia.
  - rewrite H. reflexivity.
Defined.

(** X23. In a time zone west of UTC (less than a day behind) the label of
    every point is the one of the day before its date: the date string is
    read as UTC midnight and shown in local time. *)
Theorem chartData_labels_west (tz : Z) (data : list StockPriceData) :
  - msPerDay <= tz < 0 ->
  map StockChart.date (StockChart.chartData tz data) =
  map (fun item => StockChart.toLocaleDateString 0 (getTime (date item) - msPerDay)) data /\
  Forall (fun item => Day (getTime (date item) - msPerDay) = Day (getTime (date item)) - 1) data.
Proof.
  intros Htz. split.
  - unfold StockChart.chartData. rewrite map_map. cbn [StockChart.date].
    apply map_ext. intros item. unfold StockChart.toLocaleDateString.
    assert (E : forall t s, 0 <= s < msPerDay ->
              MonthFromTime (MakeDate t s) = MonthFromTime (MakeDate t 0) /\
              DateFromTime (MakeDate t s) = DateFromTime (MakeDate t 0)).
    { intros t s Hs.
      unfold DateFromTime, MonthFromTime, DayWithinYear, YearFromTime.
      rewrite !Day_MakeDate by (unfold msPerDay in *; lia). split; reflexivity. }
    set (k := MakeDay (year (date item)) (month (date item) - 1) (day (date item))).
    replace (LocalTime tz (getTime (date item))) with (MakeDate (k - 1) (msPerDay + tz))
      by (unfold LocalTime, getTime, MakeDate; fold k; lia).
    replace (LocalTime 0 (getTime (date item) - msPerDay)) with (MakeDate (k - 1) 0)
      by (unfold LocalTime, getTime, MakeDate; fold k; lia).
    destruct (E (k - 1) (msPerDay + tz) ltac:(lia)) as (-> & ->). reflexivity.
  - apply Forall_forall. intros item _. unfold Day, msPerDay. Z.div_mod_to_equations. lia.
Qed.

Lemma chartData_labels_west_witness :
  map StockChart.date
    (StockChart.chartData (-18000000) [mkPrice (mkDate 2024 7 1) (ofZ 3)])
  = ["Jun 30"%string].
Proof.
  destruct (chartData_labels_west (-18000000) [mkPrice (mkDate 2024 7 1) (ofZ 3)]) as (H & _).
  - unfold msPerDay. lia.
  - rewrite H. reflexivity.
Defined.

(** ** Failures that carry their own message *)

(** X24. When a fetch is rejected, or the body of an ok response cannot be
    read, [fetchComparisonData] shows the message of that failure, or
    "An unknown error occurred." when the message is empty; the comparison
    is cleared and the loading flag is off, whatever was written to the
    state in the meantime.  With two rejections the message is the one of
    the rejection that came first. *)
Theorem thrown_message_shown (tz now : Z) (ticker1 ticker2 timeframe : string)
    (f1 f2 : Fetched) (secondFirst : bool) (meanwhile : View -> View) (v : View)
    (message : string) :
  ticker1 <> ""%string -> ticker2 <> ""%string ->
  (exists ok j, f1 = Rejected message /\ f2 = Resolved ok j) \/
  (exists ok j, f1 = Resolved ok j /\ f2 = Rejected message) \/
  (exists other, f1 = Rejected message /\ f2 = Rejected other /\ secondFirst = false) \/
  (exists other, f1 = Rejected other /\ f2 = Rejected message /\ secondFirst = true) \/
  (exists j, f1 = Resolved true (inl message) /\ f2 = Resolved true j) \/
  (exists d, f1 = Resolved true (inr d) /\ f2 = Resolved true (inl message)) ->
  let v' := fetchComparisonData tz now ticker1 ticker2 timeframe f1 f2 secondFirst meanwhile v in
  comparisonData v' = None /\ loading v' = false /\
  error v' = (if JS.truthy message then message else "An unknown error occurred."%string).
Proof.
  intros N1 N2 H v'.
  assert (T1 : JS.truthy ticker1 = true) by (destruct ticker1; [contradiction | reflexivity]).
  assert (T2 : JS.truthy ticker2 = true) by (destruct ticker2; [contradiction | reflexivity]).
  unfold v'. rewrite (fetchComparisonData_settled _ _ _ _ _ _ _ _ _ _ T1 T2).
  assert (E : compare ticker1 ticker2 (getTimeframeStartDate tz now timeframe) f1 f2 secondFirst
              = inl message).
  { unfold compare.
    destruct H as [(ok & j & -> & ->) | [(ok & j & -> & ->) | [(o & -> & -> & ->) |
                  [(o & -> & -> & ->) | [(j & -> & ->) | (d & -> & ->)]]]]];
      reflexivity. }
  rewrite E. repeat split.
Qed.

Lemma thrown_message_shown_witness :
  let v := {| comparisonData := Some (mkComparison "AAPL" "MSFT" [] [] hundred hundred);
              loading := true; error := "" |} in
  error (fetchComparisonData 0 (getTime (mkDate 2024 6 15)) "AAPL" "MSFT" "1y"
           (Rejected "") (Resolved true (inr (mkStock "MSFT" [] None))) false
           (setError "stale") v)
  = "An unknown error occurred."%string.
Proof.
  cbv zeta.
  destruct (thrown_message_shown 0 (getTime (mkDate 2024 6 15)) "AAPL" "MSFT" "1y"
              (Rejected "") (Resolved true (inr (mkStock "MSFT" [] None))) false
              (setError "stale")
              {| comparisonData := Some (mkComparison "AAPL" "MSFT" [] [] hundred hundred);
                 loading := true; error := "" |} "") as (_ & _ & H).
  - discriminate.
  - discriminate.
  - left. eauto.
  - exact H.
Defined.

Lemma stringOr_truthy (a : option string) (b : string) :
  JS.truthy b = true -> JS.truthy (StockRoute.stringOr a b) = true.
Proof.
  intros H. unfold StockRoute.stringOr. destruct a as [s |]; [apply orElse_truthy |]; exact H.
Qed.

Lemma append_truthy (a b : string) : JS.truthy b = true -> JS.truthy (a ++ b) = true.
Proof. intros H. destruct a; [exact H | reflexivity]. Qed.

(** X25. The name in a successful answer is never empty: it is the long
    name of the provider when that is a non-empty string, otherwise its
    short name when that is one, otherwise the symbol followed by
    " Inc.". *)
Theorem answer_name (w : StockRoute.World) (symbol timeframe : string)
    (symbol' name : string) (prices : list StockRoute.PriceRow) :
  StockRoute.fetchStock w symbol timeframe = inr (StockRoute.StockJson symbol' name prices) ->
  symbol' = symbol /\ name <> ""%string /\
  exists summary,
    StockRoute.quote w symbol = inr summary /\
    let long := match summary with Some s => StockRoute.longName s | None => None end in
    let short := match summary with Some s => StockRoute.shortName s | None => None end in
    name =
      match long, short with
      | Some l, Some s => if JS.truthy l then l else if JS.truthy s then s else symbol ++ " Inc."
      | Some l, None => if JS.truthy l then l else symbol ++ " Inc."
      | None, Some s => if JS.truthy s then s else symbol ++ " Inc."
      | None, None => symbol ++ " Inc."
      end%string.
Proof.
  unfold StockRoute.fetchStock.
  destruct (StockRoute.chart w symbol _ _) as [e | chartResult]; [discriminate |].
  destruct (StockRoute.quote w symbol) as [e | summary]; [discriminate |].
  intros H. injection H as <- <- _. split; [reflexivity |]. split.
  - apply truthy_not_empty, stringOr_truthy, stringOr_truthy, append_truthy. reflexivity.
  - exists summary. split; [reflexivity |]. cbv zeta.
    unfold StockRoute.stringOr, JS.orElse.
    destruct (match summary with Some s => StockRoute.longName s | None => None end) as [l |];
      destruct (match summary with Some s => StockRoute.shortName s | None => None end) as [s |];
      reflexivity.
Qed.

Lemma answer_name_witness :
  let w := {| StockRoute.now := getTime (mkDate 2024 6 15);
              StockRoute.tz := 0;
              StockRoute.chart := fun _ _ _ => inr (Some []);
              StockRoute.quote := fun _ =>
                inr (Some {| StockRoute.longName := Some ""%string;
                             StockRoute.shortName := None |});
              StockRoute.toFixed2 := fun x => x |} in
  exists name prices,
    StockRoute.fetchStock w "GOOG" "1y" = inr (StockRoute.StockJson "GOOG" name prices) /\
    name <> ""%string.
Proof.
  cbv zeta. do 2 eexists. split; [reflexivity |].
  destruct (answer_name
              {| StockRoute.now := getTime (mkDate 2024 6 15);
                 StockRoute.tz := 0;
                 StockRoute.chart := fun _ _ _ => inr (Some []);
                 StockRoute.quote := fun _ =>
                   inr (Some {| StockRoute.longName := Some ""%string;
                                StockRoute.shortName := None |});
                 StockRoute.toFixed2 := fun x => x |}
              "GOOG" "1y" _ _ _ eq_refl) as (_ & H & _).
  exact H.
Defined.
